(** * weather-go: a shallow embedding of [main.go]

    The server of [main.go] has two handlers: [hello], and the closure
    registered at ["/weather/"], which cuts the city out of the request path,
    calls [query] (read the key file, one outbound GET, decode the body) and
    writes either a JSON report or a plain-text error.

    The Go standard library is the environment of the program.  Its calls are
    given here by small models of their documented behaviour:
    - [strings.SplitN] on byte strings;
    - [encoding/json] on parsed documents (a value of type [json]) rather than
      on bytes: key matching, type mismatches, zero values and the order of
      the members are as in Go, the scanner is not modelled;
    - [os.ReadFile] and [http.Get] as look-ups in a [World], each leaving an
      event in a trace, so that what was attempted can be stated;
    - [http.ResponseWriter] as a record of the headers, the status and the
      writes.
    A handler is studied on the request it is given, with [r.URL.Path] as the
    server hands it over; how [http.ServeMux] finds the handler for a path
    (and redirects a path that is not clean) is not modelled beyond the map of
    the patterns that [main] registers. *)

From Stdlib Require Import ZArith Ascii String Bool PrimFloat.
From stdpp Require Import base option list strings gmap.

Local Open Scope Z_scope.
Set Warnings "-register-all".

(** ** Strings and bytes *)

Module Bytes.

(** A Go string is a sequence of bytes; [string] of the Standard Library is
    one, its characters being the bytes. *)

(** The line feed and the double quote. *)
Definition nl : string := String (ascii_of_nat 10) EmptyString.
Definition dq : string := String (ascii_of_nat 34) EmptyString.

(** [len(s)]. *)
Definition len (s : string) : Z := Z.of_nat (String.length s).

(** [strings.CutPrefix]: the rest of [s] after the prefix [p], if [s] starts with it. *)
Fixpoint CutPrefix (s p : string) {struct p} : option string :=
  match p with
  | EmptyString => Some s
  | String c p' =>
      match s with
      | EmptyString => None
      | String d s' => if Ascii.eqb c d then CutPrefix s' p' else None
      end
  end.

(** [strings.Cut]: [s] around the first instance of [sep]; [None] when [sep]
    does not occur ([strings.Index] is negative). *)
Fixpoint Cut (s sep : string) : option (string * string) :=
  match CutPrefix s sep with
  | Some after => Some (EmptyString, after)
  | None =>
      match s with
      | EmptyString => None
      | String c s' =>
          match Cut s' sep with
          | Some (before, after) => Some (String c before, after)
          | None => None
          end
      end
  end.

(** [strings.Contains]. *)
Definition Contains (s sep : string) : bool :=
  match Cut s sep with Some _ => true | None => false end.

(** The loop of [genSplit]: at most [k] cuts, the rest of the string last. *)
Fixpoint split_loop (k : nat) (s sep : string) : list string :=
  match k with
  | O => [s]
  | S k' =>
      match Cut s sep with
      | None => [s]
      | Some (before, after) => before :: split_loop k' after sep
      end
  end.

(** [strings.SplitN(s, sep, n)] for a separator that is not empty, as
    [genSplit] computes it: [nil] for [n = 0]; every instance is cut for
    [n < 0] (there are at most [len(s)]); otherwise [n] is capped at
    [len(s) + 1] and at most [n - 1] cuts are made. *)
Definition SplitN (s sep : string) (n : Z) : list string :=
  if n =? 0 then []
  else if n <? 0 then split_loop (String.length s) s sep
  else
    let n := if len s + 1 <? n then len s + 1 else n in
    split_loop (Z.to_nat (n - 1)) s sep.

End Bytes.

Import Bytes.

(** ** JSON documents *)

Module JSON.

(** Go's [float64]. *)
Abbreviation float64 := PrimFloat.float.

(** A number of a document, as [strconv.ParseFloat(lit, 64)] reads it: the
    [float64] nearest to it, or a range error. *)
Inductive number : Type :=
  | Float64 (f : float64)
  | OutOfRange (lit : string).

(** A JSON value.  The members of an object are kept in the order of the text,
    repeated keys included. *)
Inductive json : Type :=
  | JNull
  | JBool (b : bool)
  | JNumber (n : number)
  | JString (s : string)
  | JArray (elems : list json)
  | JObject (members : list (string * json)).

(** What a file or a response body holds: a text on which the scanner of
    [encoding/json] succeeds, given by its value, or one on which it fails
    (or which cannot be read to its end) with the message [msg]. *)
Inductive document : Type :=
  | Doc (j : json)
  | Malformed (msg : string).

End JSON.

Import JSON.

(** ** Errors *)

(** The values of Go's [error] that reach the program, by the type that the
    library gives them. *)
Inductive error : Type :=
  | PathError (msg : string)          (* *fs.PathError, from os.ReadFile *)
  | UrlError (msg : string)           (* *url.Error, from http.Get *)
  | SyntaxError (msg : string)        (* *json.SyntaxError, io.EOF and the like *)
  | UnmarshalTypeError (Value Type_ Struct Field : string)
  | UnsupportedValueError (Str : string).

(** [err.Error()]. *)
Definition Error (e : error) : string :=
  match e with
  | PathError msg => msg
  | UrlError msg => msg
  | SyntaxError msg => msg
  | UnmarshalTypeError v t s f =>
      if String.eqb s "" && String.eqb f "" then
        "json: cannot unmarshal " +:+ v +:+ " into Go value of type " +:+ t
      else
        "json: cannot unmarshal " +:+ v +:+ " into Go struct field "
          +:+ s +:+ "." +:+ f +:+ " of type " +:+ t
  | UnsupportedValueError str => "json: unsupported value: " +:+ str
  end.

(** A call that returns [(v, err)]: callers look at [v] only when [err] is [nil]. *)
Inductive result (A : Type) : Type :=
  | Ok (v : A)
  | Err (e : error).
Arguments Ok {A} v.
Arguments Err {A} e.

(** ** Decoding into Go values: [encoding/json]'s [decodeState] *)

Module Unmarshaling.

(** [foldName]: the key under which a field is found when no field has the
    key itself.  ASCII letters are put in upper case; the Kelvin sign (U+212A,
    bytes 226 132 170) and the long s (U+017F, bytes 197 191) fold to [K] and
    [S].  Every other rune outside ASCII folds to a rune outside ASCII and is
    left as it is: the names of this program's fields are ASCII, so this
    decides the same matches. *)
Definition upper (c : ascii) : ascii :=
  let n := nat_of_ascii c in
  if (97 <=? n)%nat && (n <=? 122)%nat then ascii_of_nat (n - 32) else c.

Fixpoint foldName (s : string) : string :=
  match CutPrefix s (String (ascii_of_nat 226) (String (ascii_of_nat 132)
                      (String (ascii_of_nat 170) EmptyString))) with
  | Some _ =>
      match s with
      | String _ (String _ (String _ s')) => String "K"%char (foldName s')
      | _ => s
      end
  | None =>
      match CutPrefix s (String (ascii_of_nat 197) (String (ascii_of_nat 191) EmptyString)) with
      | Some _ =>
          match s with
          | String _ (String _ s') => String "S"%char (foldName s')
          | _ => s
          end
      | None =>
          match s with
          | EmptyString => EmptyString
          | String c s' => String (upper c) (foldName s')
          end
      end
  end.

(** [d.errorContext]: the struct at the root of the value being filled and
    the path of keys to the value being decoded. *)
Record errorContext : Type := {
  ctxStruct : string;
  FieldStack : list string
}.

Definition noContext : errorContext := {| ctxStruct := ""; FieldStack := [] |}.

(** [strings.Join(stack, ".")]. *)
Fixpoint join_dots (stack : list string) : string :=
  match stack with
  | [] => ""
  | [f] => f
  | f :: rest => f +:+ "." +:+ join_dots rest
  end.

(** [d.addErrorContext] on a fresh [UnmarshalTypeError]. *)
Definition typeError (ctx : errorContext) (value type_ : string) : error :=
  UnmarshalTypeError value type_ (ctxStruct ctx) (join_dots (FieldStack ctx)).

(** [d.saveError]: the first error is the one kept. *)
Definition saveError (saved new : option error) : option error :=
  match saved with
  | Some e => Some e
  | None => new
  end.

(** The name by which [UnmarshalTypeError.Value] calls a JSON value. *)
Definition valueKind (j : json) : string :=
  match j with
  | JNull => "null"
  | JBool _ => "bool"
  | JNumber _ => "number"
  | JString _ => "string"
  | JArray _ => "array"
  | JObject _ => "object"
  end.

(** A Go type that [Unmarshal] can fill.  [store ctx j v] is [d.value] on a
    variable holding [v]: the value it holds afterwards and the error saved,
    if any.  A value that does not fit leaves the variable as it was. *)
Class Unmarshaler (A : Type) : Type := {
  typeString : string;          (* reflect.Type.String() *)
  store : errorContext -> json -> A -> A * option error
}.

(** Kind [String]: a JSON string is stored, [null] is a no-op, anything else
    is a type error. *)
#[export] Instance string_Unmarshaler : Unmarshaler string := {|
  typeString := "string";
  store ctx j v :=
    match j with
    | JString s => (s, None)
    | JNull => (v, None)
    | _ => (v, Some (typeError ctx (valueKind j) "string"))
    end
|}.

(** Kind [Float64]: a number in range is stored, [null] is a no-op, a number
    out of range and anything else is a type error. *)
#[export] Instance float64_Unmarshaler : Unmarshaler float64 := {|
  typeString := "float64";
  store ctx j v :=
    match j with
    | JNumber (Float64 f) => (f, None)
    | JNumber (OutOfRange lit) => (v, Some (typeError ctx ("number " +:+ lit) "float64"))
    | JNull => (v, None)
    | _ => (v, Some (typeError ctx (valueKind j) "float64"))
    end
|}.

(** A field of a struct of type [S] as [cachedTypeFields] lists it: its JSON
    name (the tag), and how to read and write it. *)
Record field (S : Type) : Type := Field {
  jsonName : string;
  fieldType : Type;
  fieldUnmarshaler : Unmarshaler fieldType;
  get : S -> fieldType;
  set : S -> fieldType -> S
}.
Arguments Field {S} jsonName {fieldType fieldUnmarshaler} get set.
Arguments jsonName {S} _.
Arguments fieldType {S} _.
Arguments fieldUnmarshaler {S} _.
Arguments get {S} _ _.
Arguments set {S} _ _ _.

(** The field for a key: the one with exactly this name if there is one,
    otherwise the first whose folded name is the folded key. *)
Definition findField {S : Type} (fields : list (field S)) (key : string) : option (field S) :=
  match List.find (fun f => String.eqb (jsonName f) key) fields with
  | Some f => Some f
  | None => List.find (fun f => String.eqb (foldName (jsonName f)) (foldName key)) fields
  end.

(** One member of an object, decoded into the struct [s]: a key that names no
    field is skipped with its value; otherwise the value is decoded into the
    field.  The error context of a type error names the struct at the root
    of the value and the path of the keys as the text writes them. *)
Definition objectMember {S : Type} (structName : string) (fields : list (field S))
    (ctx : errorContext) (acc : S * option error) (member : string * json)
  : S * option error :=
  let '(s, saved) := acc in
  match findField fields (fst member) with
  | None => (s, saved)
  | Some f =>
      let ctx' :=
        {| ctxStruct := match FieldStack ctx with [] => structName | _ => ctxStruct ctx end;
           FieldStack := FieldStack ctx ++ [fst member] |} in
      let '(x, e) := @store _ (fieldUnmarshaler f) ctx' (snd member) (get f s) in
      (set f s x, saveError saved e)
  end.

(** [d.object] on a struct: the members in the order of the text. *)
Definition object {S : Type} (structName : string) (fields : list (field S))
    (ctx : errorContext) (members : list (string * json)) (s : S) : S * option error :=
  fold_left (objectMember structName fields ctx) members (s, None).

(** Kind [Struct]: an object fills the fields, [null] is a no-op, anything
    else is a type error. *)
Definition storeStruct {S : Type} (typeString_ structName : string) (fields : list (field S))
    (ctx : errorContext) (j : json) (s : S) : S * option error :=
  match j with
  | JObject members => object structName fields ctx members s
  | JNull => (s, None)
  | _ => (s, Some (typeError ctx (valueKind j) typeString_))
  end.

(** [d.unmarshal(&v)] on a text already scanned. *)
Definition unmarshal {A : Type} `{Unmarshaler A} (j : json) (v : A) : A * option error :=
  store noContext j v.

(** [json.Unmarshal(data, &v)]: a text that is not JSON is a syntax error and
    leaves [v] as it was. *)
Definition Unmarshal {A : Type} `{Unmarshaler A} (data : document) (v : A) : A * option error :=
  match data with
  | Malformed msg => (v, Some (SyntaxError msg))
  | Doc j => unmarshal j v
  end.

End Unmarshaling.

Import Unmarshaling.

(** ** Encoding Go values: [json.Marshal] *)

Module Marshaling.

(** [math.IsInf(f, 0) || math.IsNaN(f)] is what the encoder refuses. *)
Definition finite (f : float64) : bool := negb (is_nan f || is_infinity f).

(** [v.MarshalJSON]-like: the value as a document, or the encoder's error. *)
Class Marshaler (A : Type) : Type := {
  marshal : A -> result json
}.

#[export] Instance string_Marshaler : Marshaler string := {|
  marshal s := Ok (JString s)
|}.

#[export] Instance float64_Marshaler : Marshaler float64 := {|
  marshal f :=
    if finite f then Ok (JNumber (Float64 f))
    else Err (UnsupportedValueError
                (if is_nan f then "NaN" else if PrimFloat.ltb f 0 then "-Inf" else "+Inf"))
|}.

End Marshaling.

Import Marshaling.

(** ** The outside world and the effects of a request *)

Module Env.

(** [*http.Response], as far as the program can see it: [main.go] reads the
    body and never looks at the status code. *)
Record Response : Type := {
  StatusCode : Z;
  Body : document
}.

(** What the file system and the network answer. *)
Record World : Type := {
  files : string -> result document;     (* os.ReadFile(name) *)
  upstream : string -> result Response   (* what http.Get(url) returns *)
}.

(** What a request does to the outside, in the order in which it does it. *)
Inductive event : Type :=
  | EvReadFile (name : string)      (* a file is read *)
  | EvGet (url : string)            (* http.Get is called: an outbound GET is attempted *)
  | EvBodyOpen (url : string)       (* a response arrived: its body stream is open *)
  | EvBodyRead (url : string)       (* the body stream is read *)
  | EvBodyClose (url : string).     (* the body stream is closed *)

Definition trace : Type := list event.

(** A computation with effects: it reads the world and extends the trace. *)
Definition IO (A : Type) : Type := World -> trace -> A * trace.

Definition ret {A : Type} (a : A) : IO A := fun _ t => (a, t).

Definition bind {A B : Type} (m : IO A) (k : A -> IO B) : IO B :=
  fun w t => let '(a, t') := m w t in k a w t'.

Definition emit (e : event) : IO unit := fun _ t => (tt, t ++ [e]).

Definition ask : IO World := fun w t => (w, t).

(** [defer cleanup; body]: [cleanup] runs when [body] has returned, whatever
    [body] returns, and the result is [body]'s. *)
Definition defer {A : Type} (cleanup : IO unit) (body : IO A) : IO A :=
  fun w t => let '(a, t') := body w t in let '(_, t'') := cleanup w t' in (a, t'').

End Env.

Import Env.

Notation "'let*' x := m 'in' k" := (bind m (fun x => k))
  (at level 10, x name, m at level 100, k at level 200, only parsing).
Notation "'exec' m 'in' k" := (bind m (fun _ => k))
  (at level 10, m at level 100, k at level 200, only parsing).

(** ** The calls of the standard library that [main.go] makes *)

Module Lib.

(** [os.ReadFile]. *)
Definition os_ReadFile (name : string) : IO (result document) :=
  exec emit (EvReadFile name) in
  let* w := ask in
  ret (files w name).

(** A response whose body stream is open, as [http.Get] hands it over; [from]
    names the stream in the trace. *)
Record OpenResponse : Type := {
  from : string;
  response : Response
}.

(** [http.Get]: the call is recorded and the world says what it returns; on
    success the caller owns the body stream and must close it.  What the
    client does with the URL before it sends anything is part of the world's
    answer: see [requestSent] and [clientLike] below. *)
Definition http_Get (url : string) : IO (result OpenResponse) :=
  exec emit (EvGet url) in
  let* w := ask in
  match upstream w url with
  | Err err => ret (Err err)
  | Ok resp => exec emit (EvBodyOpen url) in ret (Ok {| from := url; response := resp |})
  end.

(** [resp.Body.Close()]. *)
Definition Body_Close (resp : OpenResponse) : IO unit := emit (EvBodyClose (from resp)).

(** [json.NewDecoder(resp.Body).Decode(&v)]: reads the stream, then decodes as
    [Unmarshal] does. *)
Definition Decode {A : Type} `{Unmarshaler A} (resp : OpenResponse) (v : A)
  : IO (A * option error) :=
  exec emit (EvBodyRead (from resp)) in
  ret (Unmarshal (Body (response resp)) v).

(** What is written to a response: bytes, or the text of a JSON value as
    [encoding/json] renders it. *)
Inductive chunk : Type :=
  | Text (s : string)
  | JSONText (j : json).

(** [http.ResponseWriter]: the header map, the status once it is written, and
    the body written so far.  (Headers set after the status is written would
    not be sent; no path of [main.go] sets one that late.) *)
Record ResponseWriter : Type := {
  Header : gmap string (list string);
  status : option Z;
  body : list chunk
}.

(** A writer nobody has touched. *)
Definition newResponseWriter : ResponseWriter :=
  {| Header := ∅; status := None; body := [] |}.

Definition StatusOK : Z := 200.
Definition StatusBadRequest : Z := 400.
Definition StatusNotFound : Z := 404.
Definition StatusInternalServerError : Z := 500.

(** [w.Header().Set(key, value)]. *)
Definition Header_Set (w : ResponseWriter) (key value : string) : ResponseWriter :=
  {| Header := <[key := [value]]> (Header w); status := status w; body := body w |}.

(** [w.Header().Get(key)]. *)
Definition Header_Get (w : ResponseWriter) (key : string) : string :=
  match Header w !! key with
  | Some (v :: _) => v
  | _ => ""
  end.

(** [w.WriteHeader(code)]: only the first call counts. *)
Definition WriteHeader (w : ResponseWriter) (code : Z) : ResponseWriter :=
  match status w with
  | Some _ => w
  | None => {| Header := Header w; status := Some code; body := body w |}
  end.

(** [w.Write(b)]: writes the header with [StatusOK] first if none was written. *)
Definition Write (w : ResponseWriter) (b : list chunk) : ResponseWriter :=
  let w := WriteHeader w StatusOK in
  {| Header := Header w; status := status w; body := body w ++ b |}.

(** The status the client receives: [StatusOK] when the handler wrote none. *)
Definition statusSent (w : ResponseWriter) : Z := default StatusOK (status w).

(** [http.Error]: a plain-text reply with the given code; the message is
    written with [fmt.Fprintln], that is, followed by a line feed. *)
Definition http_Error (w : ResponseWriter) (error : string) (code : Z) : ResponseWriter :=
  let w := Header_Set w "Content-Type" "text/plain; charset=utf-8" in
  let w := Header_Set w "X-Content-Type-Options" "nosniff" in
  let w := WriteHeader w code in
  Write w [Text (error +:+ nl)].

(** [json.NewEncoder(w).Encode(v)]: the value and a line feed in one write, or
    the encoder's error and nothing written. *)
Definition Encode {A : Type} `{Marshaler A} (w : ResponseWriter) (v : A)
  : ResponseWriter * option error :=
  match marshal v with
  | Err err => (w, Some err)
  | Ok j => (Write w [JSONText j; Text nl], None)
  end.

(** [*http.Request], as far as the handlers can see it. *)
Record URL : Type := {
  Path : string;
  RawQuery : string
}.

Record Request : Type := {
  Method : string;
  url : URL
}.

Definition Handler : Type := ResponseWriter -> Request -> IO ResponseWriter.

End Lib.

Import Lib.

(** ** The program: [main.go] *)

(** [type apiConfig struct]. *)
Record apiConfig : Type := {
  OpenWeatherMapApiKey : string
}.

(** [apiConfig{}]. *)
Definition apiConfig_zero : apiConfig := {| OpenWeatherMapApiKey := "" |}.

(** The anonymous struct type of [weatherData.Main]. *)
Record weatherData_Main : Type := {
  Kelvin : float64
}.

(** [type weatherData struct]. *)
Record weatherData : Type := {
  Name : string;
  Main : weatherData_Main
}.

(** [weatherData{}]. *)
Definition weatherData_zero : weatherData :=
  {| Name := ""; Main := {| Kelvin := 0%float |} |}.

(** The struct tags: which JSON key fills which field. *)
Definition apiConfig_fields : list (field apiConfig) :=
  [Field "OpenWeatherMapApiKey" OpenWeatherMapApiKey
     (fun _ x => {| OpenWeatherMapApiKey := x |})].

#[export] Instance apiConfig_Unmarshaler : Unmarshaler apiConfig := {|
  typeString := "main.apiConfig";
  store := storeStruct "main.apiConfig" "apiConfig" apiConfig_fields
|}.

Definition weatherData_Main_typeString : string :=
  "struct { Kelvin float64 " +:+ dq +:+ "json:" +:+ String (ascii_of_nat 92) dq
    +:+ "temp" +:+ String (ascii_of_nat 92) dq +:+ dq +:+ " }".

Definition weatherData_Main_fields : list (field weatherData_Main) :=
  [Field "temp" Kelvin (fun _ x => {| Kelvin := x |})].

#[export] Instance weatherData_Main_Unmarshaler : Unmarshaler weatherData_Main := {|
  typeString := weatherData_Main_typeString;
  store := storeStruct weatherData_Main_typeString "" weatherData_Main_fields
|}.

Definition weatherData_fields : list (field weatherData) :=
  [Field "name" Name (fun d x => {| Name := x; Main := Main d |});
   Field "main" Main (fun d x => {| Name := Name d; Main := x |})].

#[export] Instance weatherData_Unmarshaler : Unmarshaler weatherData := {|
  typeString := "main.weatherData";
  store := storeStruct "main.weatherData" "weatherData" weatherData_fields
|}.

(** The same tags name the members that the encoder writes, in the order of
    the fields. *)
#[export] Instance weatherData_Marshaler : Marshaler weatherData := {|
  marshal d :=
    match marshal (Name d), marshal (Kelvin (Main d)) with
    | Ok name, Ok temp => Ok (JObject [("name", name); ("main", JObject [("temp", temp)])])
    | Err err, _ => Err err
    | _, Err err => Err err
    end
|}.

(** [func loadApiConfig(filename string) (apiConfig, error)]. *)
Definition loadApiConfig (filename : string) : IO (result apiConfig) :=
  let* bytes := os_ReadFile filename in
  match bytes with
  | Err err => ret (Err err)
  | Ok bytes =>
      let '(c, err) := Unmarshal bytes apiConfig_zero in
      match err with
      | Some err => ret (Err err)
      | None => ret (Ok c)
      end
  end.

(** [func hello(w http.ResponseWriter, r *http.Request)]. *)
Definition hello : Handler :=
  fun w r => ret (Write w [Text ("Hello, World!" +:+ nl)]).

(** The URL that [query] asks for. *)
Definition queryURL (city key : string) : string :=
  "http://api.Openweathermap.org/data/2.5/weather?q=" +:+ city +:+ "&appid=" +:+ key.

(** [func query(city string) (weatherData, error)]. *)
Definition query (city : string) : IO (result weatherData) :=
  let* cfg := loadApiConfig ".apiConfig" in
  match cfg with
  | Err err => ret (Err err)
  | Ok apiConfig =>
      let* got := http_Get (queryURL city (OpenWeatherMapApiKey apiConfig)) in
      match got with
      | Err err => ret (Err err)
      | Ok resp =>
          defer (Body_Close resp)
            (let* decoded := Decode resp weatherData_zero in
             match decoded with
             | (_, Some err) => ret (Err err)
             | (d, None) => ret (Ok d)
             end)
      end
  end.

(** The closure that [main] registers at ["/weather/"]. *)
Definition weatherHandler : Handler :=
  fun w r =>
    let parts := SplitN (Path (url r)) "/" 3 in
    if (Z.of_nat (length parts) <? 3) || String.eqb (default "" (parts !! 2%nat)) "" then
      ret (http_Error w "City name not provided" StatusBadRequest)
    else
      let* res := query (default "" (parts !! 2%nat)) in
      match res with
      | Err err => ret (http_Error w (Error err) StatusInternalServerError)
      | Ok data =>
          let w := Header_Set w "Content-Type" "application/json; charset=utf-8" in
          ret (fst (Encode w data))
      end.

(** The patterns that [main] registers with [http.HandleFunc], as the map of
    [http.DefaultServeMux] holds them. *)
Definition main_mux : gmap string Handler :=
  <["/weather/" := weatherHandler]> (<["/hello" := hello]> ∅).

(** The address [main] listens on. *)
Definition main_addr : string := ":8081".

(** * What the program is observed by

    Definitions that the statements below use: the value and the events of a
    call as plain functions of the world, readings of a trace, the members of
    an object that a field takes, and some worlds to run the program in. *)

(** ** The value and the events of a call *)

Module Run.

(** The value of [loadApiConfig]. *)
Definition configOf (W : World) (filename : string) : result apiConfig :=
  match files W filename with
  | Err err => Err err
  | Ok bytes =>
      match Unmarshal bytes apiConfig_zero with
      | (_, Some err) => Err err
      | (c, None) => Ok c
      end
  end.

(** The value of [query] once a response has arrived. *)
Definition decodedOf (resp : Response) : result weatherData :=
  match Unmarshal (Body resp) weatherData_zero with
  | (_, Some err) => Err err
  | (d, None) => Ok d
  end.

(** The value of [query] and the events it adds. *)
Definition queryOf (W : World) (city : string) : result weatherData * list event :=
  match configOf W ".apiConfig" with
  | Err err => (Err err, [EvReadFile ".apiConfig"])
  | Ok cfg =>
      let u := queryURL city (OpenWeatherMapApiKey cfg) in
      match upstream W u with
      | Err err => (Err err, [EvReadFile ".apiConfig"; EvGet u])
      | Ok resp =>
          (decodedOf resp,
           [EvReadFile ".apiConfig"; EvGet u; EvBodyOpen u; EvBodyRead u; EvBodyClose u])
      end
  end.

(** Lines 81 to 86 of the handler: what it writes for a result of [query]. *)
Definition reply (w : ResponseWriter) (res : result weatherData) : ResponseWriter :=
  match res with
  | Err err => http_Error w (Error err) StatusInternalServerError
  | Ok data => fst (Encode (Header_Set w "Content-Type" "application/json; charset=utf-8") data)
  end.

(** [query] for one city after the other, as requests that follow each other
    make it run. *)
Fixpoint queryAll (cities : list string) : IO (list (result weatherData)) :=
  match cities with
  | [] => ret []
  | city :: rest =>
      let* res := query city in
      let* others := queryAll rest in
      ret (res :: others)
  end.

(** Why a [query] fails: the key file did not load, or the GET failed, or the
    body did not decode. *)
Definition failureCause (W : World) (c : string) (t : trace) (err : error) : Prop :=
  fst (loadApiConfig ".apiConfig" W t) = Err err
  \/ (exists cfg, fst (loadApiConfig ".apiConfig" W t) = Ok cfg
                  /\ upstream W (queryURL c (OpenWeatherMapApiKey cfg)) = Err err)
  \/ (exists cfg resp, fst (loadApiConfig ".apiConfig" W t) = Ok cfg
                       /\ upstream W (queryURL c (OpenWeatherMapApiKey cfg)) = Ok resp
                       /\ snd (Unmarshal (Body resp) weatherData_zero) = Some err).

End Run.

Import Run.

(** ** The members of an object that the decoder takes *)

Module Members.

(** Whether a member's key selects the field of this name when no field has
    the key itself: the two are equal up to case. *)
Definition keyIs (fieldName : string) (member : string * json) : bool :=
  String.eqb (foldName fieldName) (foldName (fst member)).

(** The members that a field of this name would take. *)
Definition membersFor (fieldName : string) (members : list (string * json)) :=
  List.filter (keyIs fieldName) members.

(** The value of [Main.Kelvin] after an object: that of the one member that
    is [temp] up to case, or the old one when there is none. *)
Definition tempInv (members : list (string * json)) (m : weatherData_Main) (t : float64) : Prop :=
  membersFor "temp" members = [("temp", JNumber (Float64 t))]
  \/ (membersFor "temp" members = [] /\ Kelvin m = t).

(** The value of [Name] after an object: that of the one member that is
    [name] up to case, or the old one when there is none. *)
Definition nameInv (members : list (string * json)) (d : weatherData) (n : string) : Prop :=
  membersFor "name" members = [("name", JString n)]
  \/ (membersFor "name" members = [] /\ Name d = n).

(** The same for [Main]: one member that is [main] up to case, an object
    with one member that is [temp] up to case. *)
Definition mainInv (members : list (string * json)) (d : weatherData) (t : float64) : Prop :=
  (exists inner, membersFor "main" members = [("main", JObject inner)]
                 /\ membersFor "temp" inner = [("temp", JNumber (Float64 t))])
  \/ (membersFor "main" members = [] /\ Main d = {| Kelvin := t |}).

End Members.

Import Members.

(** ** Reading a trace *)

Module Trace.

(** The URLs of the outbound GETs attempted, in order. *)
Fixpoint outboundCalls (t : trace) : list string :=
  match t with
  | [] => []
  | EvGet u :: t' => u :: outboundCalls t'
  | _ :: t' => outboundCalls t'
  end.

(** The names of the files read, in order. *)
Fixpoint filesRead (t : trace) : list string :=
  match t with
  | [] => []
  | EvReadFile f :: t' => f :: filesRead t'
  | _ :: t' => filesRead t'
  end.

(** [l] without the first [u] in it. *)
Fixpoint removeOne (u : string) (l : list string) : list string :=
  match l with
  | [] => []
  | v :: l' => if String.eqb u v then l' else v :: removeOne u l'
  end.

(** The body streams open after an event, given those open before it. *)
Definition openStep (open : list string) (e : event) : list string :=
  match e with
  | EvBodyOpen u => u :: open
  | EvBodyClose u => removeOne u open
  | _ => open
  end.

(** The body streams that a trace leaves open. *)
Definition openBodies (t : trace) : list string := fold_left openStep t [].

End Trace.

Import Trace.

(** ** Worlds and requests to try the program on *)

Module Fixtures.

(** A key file as section 6 of the specification shows it. *)
Definition keyFile (key : string) : document :=
  Doc (JObject [("OpenWeatherMapApiKey", JString key)]).

Definition request (path : string) : Request :=
  {| Method := "GET"; url := {| Path := path; RawQuery := "" |} |}.

(** A file system that holds the key file only. *)
Definition onlyKeyFile (content : document) (name : string) : result document :=
  if String.eqb name ".apiConfig" then Ok content
  else Err (PathError ("open " +:+ name +:+ ": no such file or directory")).

(** A file system without the key file. *)
Definition noFiles (name : string) : result document :=
  Err (PathError ("open " +:+ name +:+ ": no such file or directory")).

(** An upstream that answers every GET with the same response. *)
Definition answers (code : Z) (content : document) (url : string) : result Response :=
  Ok {| StatusCode := code; Body := content |}.

(** An upstream that cannot be reached. *)
Definition unreachable (url : string) : result Response :=
  Err (UrlError "dial tcp: lookup api.Openweathermap.org: no such host").

(** A body as the upstream sends it for London: the two members that the
    program keeps, among others. *)
Definition londonMembers : list (string * json) :=
  [("coord", JObject [("lon", JNumber (Float64 (-0.125)%float));
                      ("lat", JNumber (Float64 51.5%float))]);
   ("main", JObject [("temp", JNumber (Float64 288.5%float));
                     ("pressure", JNumber (Float64 1012%float))]);
   ("name", JString "London");
   ("cod", JNumber (Float64 200%float))].

Definition londonWorld : World :=
  {| files := onlyKeyFile (keyFile "abc");
     upstream := answers 200 (Doc (JObject londonMembers)) |}.

(** The same two members, and a third whose key is [NAME] and whose value is
    a number. *)
Definition shoutingMembers : list (string * json) :=
  [("name", JString "London");
   ("main", JObject [("temp", JNumber (Float64 288.5%float))]);
   ("NAME", JNumber (Float64 5%float))].

Definition shoutingWorld : World :=
  {| files := onlyKeyFile (keyFile "abc");
     upstream := answers 200 (Doc (JObject shoutingMembers)) |}.

(** The body that the upstream sends with status 401 for a key it does not know. *)
Definition unauthorizedMembers : list (string * json) :=
  [("cod", JNumber (Float64 401%float));
   ("message", JString "Invalid API key. Please see https://openweathermap.org/faq#error401 for more info.")].

Definition unauthorizedWorld : World :=
  {| files := onlyKeyFile (keyFile "");
     upstream := answers 401 (Doc (JObject unauthorizedMembers)) |}.

(** A response that is not JSON. *)
Definition htmlWorld : World :=
  {| files := onlyKeyFile (keyFile "abc");
     upstream := answers 502 (Malformed "invalid character '<' looking for beginning of value") |}.

Definition noConfigWorld : World :=
  {| files := noFiles; upstream := answers 200 (Doc (JObject londonMembers)) |}.

Definition offlineWorld : World :=
  {| files := onlyKeyFile (keyFile "abc"); upstream := unreachable |}.

(** Key files that are JSON but not of the expected shape: no member at all,
    and a member under another key. *)
Definition emptyObjectWorld : World :=
  {| files := onlyKeyFile (Doc (JObject [])); upstream := unreachable |}.

Definition otherKeyWorld : World :=
  {| files := onlyKeyFile (Doc (JObject [("apiKey", JString "abc")])); upstream := unreachable |}.

End Fixtures.

Import Fixtures.

(** ** More ways to look at a request *)

Module Coverage.

(** The text after the second slash of a path, if the path has two slashes. *)
Definition afterSecondSlash (path : string) : option string :=
  match Cut path "/" with
  | None => None
  | Some (_, rest) =>
      match Cut rest "/" with
      | None => None
      | Some (_, city) => Some city
      end
  end.

(** Whether a member's key selects a field of [weatherData]. *)
Definition forReport (member : string * json) : bool :=
  keyIs "name" member || keyIs "main" member.

(** Whether a JSON value can be stored in a Go [string]: a string, or [null]
    (which stores nothing). *)
Definition fitsString (j : json) : bool :=
  match j with
  | JString _ | JNull => true
  | _ => false
  end.

(** The same for a Go struct: an object, or [null]. *)
Definition fitsStruct (j : json) : bool :=
  match j with
  | JObject _ | JNull => true
  | _ => false
  end.

(** Whether every number of a document that is in the range of [float64] is a
    finite one, as [strconv.ParseFloat] returns them. *)
Fixpoint finiteNumbers (j : json) : bool :=
  match j with
  | JNumber (Float64 f) => finite f
  | JArray elems => forallb finiteNumbers elems
  | JObject members => forallb (fun member => let '(_, v) := member in finiteNumbers v) members
  | _ => true
  end.

(** The document that the encoder writes for a report. *)
Definition reportJSON (n : string) (temp : float64) : json :=
  JObject [("name", JString n); ("main", JObject [("temp", JNumber (Float64 temp))])].

(** The three replies of the weather handler. *)
Inductive replyShape (w : ResponseWriter) : Prop :=
  | NoCity :
      status w = Some StatusBadRequest ->
      Header_Get w "Content-Type" = "text/plain; charset=utf-8" ->
      body w = [Text ("City name not provided" +:+ nl)] ->
      replyShape w
  | Failed (err : error) :
      status w = Some StatusInternalServerError ->
      Header_Get w "Content-Type" = "text/plain; charset=utf-8" ->
      body w = [Text (Error err +:+ nl)] ->
      replyShape w
  | Report (n : string) (temp : float64) :
      finite temp = true ->
      status w = Some StatusOK ->
      Header_Get w "Content-Type" = "application/json; charset=utf-8" ->
      body w = [JSONText (reportJSON n temp); Text nl] ->
      replyShape w.

(** More worlds: key files and bodies with the edge cases of the decoder. *)

(** The key under a name in lower case, after another member. *)
Definition lowerCaseKeyMembers : list (string * json) :=
  [("comment", JString "prod"); ("openweathermapapikey", JString "abc")].

Definition lowerCaseKeyWorld : World :=
  {| files := onlyKeyFile (Doc (JObject lowerCaseKeyMembers)); upstream := unreachable |}.

(** A number for the key, under a name in lower case. *)
Definition numberKeyWorld : World :=
  {| files := onlyKeyFile (Doc (JObject [("openweathermapapikey",
                                          JNumber (Float64 12345%float))]));
     upstream := unreachable |}.

(** A key file that holds an array. *)
Definition arrayKeyWorld : World :=
  {| files := onlyKeyFile (Doc (JArray [JString "abc"])); upstream := unreachable |}.

(** The body for London with a second name, in capitals, after it. *)
Definition twoNamesWorld : World :=
  {| files := onlyKeyFile (keyFile "abc");
     upstream := answers 200 (Doc (JObject (londonMembers ++ [("NAME", JString "Londres")]))) |}.

(** A body whose [Main] is a number. *)
Definition mainNumberMembers : list (string * json) :=
  [("name", JString "London"); ("Main", JNumber (Float64 288.5%float))].

Definition mainNumberWorld : World :=
  {| files := onlyKeyFile (keyFile "abc");
     upstream := answers 200 (Doc (JObject mainNumberMembers)) |}.

(** A body that is [null]. *)
Definition nullBodyWorld : World :=
  {| files := onlyKeyFile (keyFile "abc"); upstream := answers 200 (Doc JNull) |}.

End Coverage.

Import Coverage.

(** ** What [http.Get] does with the URL before anything is sent *)

Module Client.

(** [stringContainsCTLByte]: a byte below the space, or the delete byte. *)
Definition isCTL (ch : ascii) : bool :=
  let n := nat_of_ascii ch in (n <? 32)%nat || (n =? 127)%nat.

Fixpoint hasCTL (s : string) : bool :=
  match s with
  | EmptyString => false
  | String ch s' => isCTL ch || hasCTL s'
  end.

(** [ishex]. *)
Definition ishex (ch : ascii) : bool :=
  let n := nat_of_ascii ch in
  ((48 <=? n) && (n <=? 57) || (97 <=? n) && (n <=? 102) || (65 <=? n) && (n <=? 70))%nat.

(** The check of [url.unescape] on a fragment: every percent sign is followed
    by two hexadecimal digits. *)
Fixpoint validEscapes (s : string) : bool :=
  match s with
  | EmptyString => true
  | String ch s' =>
      if Ascii.eqb ch "%" then
        match s' with
        | String h1 (String h2 _) => ishex h1 && ishex h2 && validEscapes s'
        | _ => false
        end
      else validEscapes s'
  end.

(** The URL that the client of [net/http] asks the server for, for
    [http.Get(rawURL)] on a URL with the scheme, host and path of [queryURL]:
    [url.Parse] refuses a URL with a control byte, cuts it at the first ['#']
    (the fragment is not sent) and refuses a fragment with a bad escape; the
    query string is sent as it is.  [None] when nothing is sent. *)
Definition requestSent (rawURL : string) : option string :=
  if hasCTL rawURL then None
  else
    match Cut rawURL "#" with
    | None => Some rawURL
    | Some (u, fragment) => if validEscapes fragment then Some u else None
    end.

(** What [http.Get] returns when the client is in front of a server: the
    error of [url.Parse] when nothing is sent, otherwise what the server
    answers to the URL sent. *)
Definition viaClient (server : string -> result Response) (rawURL : string) : result Response :=
  match requestSent rawURL with
  | None => Err (UrlError "net/url: invalid URL")
  | Some sent => server sent
  end.

(** A world whose [http.Get] refuses what the client refuses. *)
Definition clientLike (W : World) : Prop :=
  forall rawURL, requestSent rawURL = None -> exists msg, upstream W rawURL = Err (UrlError msg).



End Client.

Import Client.

(** * Properties *)

(** ** The path of a weather request *)

(** [SplitN] with the handler's arguments, on a path under the pattern: the
    third part is everything after the second slash. *)
Lemma SplitN_weather (c : string) :
  SplitN ("/weather/" +:+ c) "/" 3 = [""; "weather"; c].
Proof.
  unfold SplitN.
  replace (3 =? 0) with false by reflexivity.
  replace (3 <? 0) with false by reflexivity.
  assert (Hcap : (len ("/weather/" +:+ c) + 1 <? 3) = false).
  { apply Z.ltb_ge. unfold len. simpl String.length. lia. }
  rewrite Hcap. reflexivity.
Qed.

(** A string in which a separator occurs is not empty. *)
Lemma Contains_slash_nonempty (s : string) : Contains s "/" = true -> s <> "".
Proof. intros H ->. discriminate H. Qed.

(** ** What a call does and what it returns *)

Ltac run_io := unfold bind, emit, ask, ret, defer; simpl.

Section Running.

Variables (W : World) (t : trace).

Lemma loadApiConfig_run (filename : string) :
  loadApiConfig filename W t = (configOf W filename, t ++ [EvReadFile filename]).
Proof.
  unfold loadApiConfig, os_ReadFile, configOf. run_io.
  destruct (files W filename) as [bytes|err]; [|reflexivity].
  destruct (Unmarshal bytes apiConfig_zero) as [c [err|]]; reflexivity.
Qed.

Lemma loadApiConfig_value (filename : string) :
  fst (loadApiConfig filename W t) = configOf W filename.
Proof. rewrite loadApiConfig_run. reflexivity. Qed.

Lemma query_run (city : string) :
  query city W t = (fst (queryOf W city), t ++ snd (queryOf W city)).
Proof.
  unfold query, queryOf. unfold bind at 1. rewrite loadApiConfig_run.
  destruct (configOf W ".apiConfig") as [cfg|err]; [|reflexivity].
  unfold http_Get, Body_Close, Decode, decodedOf. run_io.
  destruct (upstream W _) as [resp|err]; simpl.
  - destruct (Unmarshal (Body resp) weatherData_zero) as [d [err|]]; simpl;
      rewrite <- !app_assoc; reflexivity.
  - rewrite <- !app_assoc. reflexivity.
Qed.

Lemma query_value (city : string) : fst (query city W t) = fst (queryOf W city).
Proof. rewrite query_run. reflexivity. Qed.

Lemma query_trace (city : string) : snd (query city W t) = t ++ snd (queryOf W city).
Proof. rewrite query_run. reflexivity. Qed.

(** The two ways through the handler. *)
Lemma weatherHandler_no_city (w : ResponseWriter) (r : Request) :
  Path (url r) = "/weather/" ->
  weatherHandler w r W t = (http_Error w "City name not provided" StatusBadRequest, t).
Proof. intros Hp. unfold weatherHandler. rewrite Hp. reflexivity. Qed.

Lemma weatherHandler_city (c : string) (w : ResponseWriter) (r : Request) :
  Path (url r) = "/weather/" +:+ c -> c <> "" ->
  weatherHandler w r W t = (reply w (fst (query c W t)), snd (query c W t)).
Proof.
  intros Hp Hc. unfold weatherHandler. rewrite Hp, SplitN_weather. simpl.
  apply String.eqb_neq in Hc. rewrite Hc.
  unfold bind. destruct (query c W t) as [[d|err] t']; reflexivity.
Qed.

(** The value of [query] when the key is loaded. *)
Lemma queryOf_with_key (city : string) (cfg : apiConfig) :
  configOf W ".apiConfig" = Ok cfg ->
  queryOf W city
  = match upstream W (queryURL city (OpenWeatherMapApiKey cfg)) with
    | Err err =>
        (Err err, [EvReadFile ".apiConfig"; EvGet (queryURL city (OpenWeatherMapApiKey cfg))])
    | Ok resp =>
        (decodedOf resp,
         [EvReadFile ".apiConfig";
          EvGet (queryURL city (OpenWeatherMapApiKey cfg));
          EvBodyOpen (queryURL city (OpenWeatherMapApiKey cfg));
          EvBodyRead (queryURL city (OpenWeatherMapApiKey cfg));
          EvBodyClose (queryURL city (OpenWeatherMapApiKey cfg))])
    end.
Proof. intros Hcfg. unfold queryOf. rewrite Hcfg. reflexivity. Qed.

(** Why a [query] fails. *)
Lemma query_failure_cause (c : string) (err : error) :
  fst (query c W t) = Err err <-> failureCause W c t err.
Proof.
  unfold failureCause. rewrite query_value, loadApiConfig_value. unfold queryOf.
  destruct (configOf W ".apiConfig") as [cfg|e0]; simpl.
  - destruct (upstream W (queryURL c (OpenWeatherMapApiKey cfg))) as [resp|e1] eqn:Eu; simpl.
    + unfold decodedOf.
      destruct (Unmarshal (Body resp) weatherData_zero) as [d [e2|]] eqn:Ed; simpl; split.
      * intros H. right. right. exists cfg, resp. rewrite Eu, Ed. simpl.
        split; [reflexivity|]. split; [reflexivity|]. congruence.
      * intros [H|[(cfg' & H & H')|(cfg' & resp' & H & H' & H'')]]; [discriminate H| |].
        -- injection H as <-. rewrite Eu in H'. discriminate H'.
        -- injection H as <-. rewrite Eu in H'. injection H' as <-.
           rewrite Ed in H''. simpl in H''. congruence.
      * intros H. discriminate H.
      * intros [H|[(cfg' & H & H')|(cfg' & resp' & H & H' & H'')]]; [discriminate H| |].
        -- injection H as <-. rewrite Eu in H'. discriminate H'.
        -- injection H as <-. rewrite Eu in H'. injection H' as <-.
           rewrite Ed in H''. discriminate H''.
    + split.
      * intros H. right. left. exists cfg. rewrite Eu. split; [reflexivity|congruence].
      * intros [H|[(cfg' & H & H')|(cfg' & resp' & H & H' & H'')]]; [discriminate H| |].
        -- injection H as <-. rewrite Eu in H'. congruence.
        -- injection H as <-. rewrite Eu in H'. discriminate H'.
  - split.
    + intros H. left. congruence.
    + intros [H|[(cfg' & H & _)|(cfg' & resp' & H & _)]]; [congruence| |]; discriminate H.
Qed.

(** What [loadApiConfig] returns, case by case: a read error as it is, a
    syntax error for a text that is not JSON, and otherwise what the decoder
    makes of the document; the file is read once. *)
Lemma loadApiConfig_outcomes (filename : string) :
  snd (loadApiConfig filename W t) = t ++ [EvReadFile filename]
  /\ (forall err, files W filename = Err err ->
        fst (loadApiConfig filename W t) = Err err)
  /\ (forall msg, files W filename = Ok (Malformed msg) ->
        fst (loadApiConfig filename W t) = Err (SyntaxError msg))
  /\ (forall j, files W filename = Ok (Doc j) ->
        fst (loadApiConfig filename W t)
        = match unmarshal j apiConfig_zero with
          | (_, Some err) => Err err
          | (c, None) => Ok c
          end).
Proof.
  rewrite loadApiConfig_run. unfold configOf. simpl.
  split; [reflexivity|]. repeat split; intros ? ->; reflexivity.
Qed.

End Running.

(** ** Decoding the upstream body *)

Section Decoding.

Variable ctx : errorContext.

Lemma find_none {A : Type} (p : A -> bool) (l : list A) :
  (forall x, In x l -> p x = false) -> List.find p l = None.
Proof.
  induction l as [|a l IH]; intros H; [reflexivity|]. simpl.
  rewrite (H a) by (left; reflexivity). apply IH. intros x Hx. apply H. right. exact Hx.
Qed.

(** A key that is no field's name up to case is skipped. *)
Lemma findField_none {S : Type} (fields : list (field S)) (member : string * json) :
  (forall f, In f fields -> keyIs (jsonName f) member = false) ->
  findField fields (fst member) = None.
Proof.
  intros H. unfold findField.
  rewrite find_none.
  - apply find_none. intros f Hf. apply (H f Hf).
  - intros f Hf. specialize (H f Hf). unfold keyIs in H.
    destruct (String.eqb_spec (jsonName f) (fst member)) as [E|]; [|reflexivity].
    rewrite E, String.eqb_refl in H. discriminate.
Qed.

Lemma objectMember_skip {S : Type} (structName : string) (fields : list (field S))
    (acc : S * option error) (member : string * json) :
  (forall f, In f fields -> keyIs (jsonName f) member = false) ->
  objectMember structName fields ctx acc member = acc.
Proof.
  intros H. unfold objectMember. destruct acc as [s saved].
  rewrite (findField_none fields member H). reflexivity.
Qed.

(** By induction on the members: [Kelvin] ends as [tempInv] says. *)
Lemma object_Main (members : list (string * json)) (m : weatherData_Main) (t : float64) :
  tempInv members m t ->
  fold_left (objectMember "" weatherData_Main_fields ctx) members (m, None)
  = ({| Kelvin := t |}, None).
Proof.
  revert m. induction members as [|member members IH]; intros m Hinv.
  - destruct Hinv as [H|[_ H]]; [discriminate H|]. destruct m. simpl in *. subst. reflexivity.
  - unfold tempInv, membersFor in Hinv. simpl in Hinv. cbn [fold_left].
    destruct (keyIs "temp" member) eqn:Ek.
    + destruct Hinv as [H|[H _]]; [|discriminate H].
      injection H as -> Hrest.
      change (objectMember "" weatherData_Main_fields ctx (m, None) ("temp", JNumber (Float64 t)))
        with ({| Kelvin := t |}, @None error).
      apply IH. right. split; [exact Hrest|reflexivity].
    + rewrite objectMember_skip.
      * apply IH. exact Hinv.
      * intros f [<-|[]]. exact Ek.
Qed.

End Decoding.

Section DecodingReport.

Variable ctx : errorContext.

(** By induction on the members: [Name] and [Main] end as the two invariants say. *)
Lemma object_weatherData (members : list (string * json))
    (d : weatherData) (n : string) (t : float64) :
  nameInv members d n -> mainInv members d t ->
  fold_left (objectMember "weatherData" weatherData_fields ctx) members (d, None)
  = ({| Name := n; Main := {| Kelvin := t |} |}, None).
Proof.
  revert d. induction members as [|member members IH]; intros d Hn Hm.
  - destruct Hn as [H|[_ Hn]]; [discriminate H|].
    destruct Hm as [[inner [H _]]|[_ Hm]]; [discriminate H|].
    destruct d. simpl in *. subst. reflexivity.
  - unfold nameInv, mainInv, membersFor in Hn, Hm. simpl in Hn, Hm. cbn [fold_left].
    destruct (keyIs "name" member) eqn:En; [|destruct (keyIs "main" member) eqn:Em].
    + destruct Hn as [H|[H _]]; [|discriminate H].
      injection H as -> Hrest. simpl in Hm.
      change (objectMember "weatherData" weatherData_fields ctx (d, None) ("name", JString n))
        with ({| Name := n; Main := Main d |}, @None error).
      apply IH; [right; split; [exact Hrest|reflexivity]|exact Hm].
    + destruct Hm as [[inner [H Ht]]|[H _]]; [|discriminate H].
      injection H as -> Hrest.
      assert (Hstep : objectMember "weatherData" weatherData_fields ctx (d, None)
                        ("main", JObject inner)
                      = ({| Name := Name d; Main := {| Kelvin := t |} |}, None)).
      { unfold objectMember. simpl. unfold object.
        rewrite (object_Main _ inner (Main d) t) by (left; exact Ht). reflexivity. }
      rewrite Hstep.
      apply IH; [|right; split; [exact Hrest|reflexivity]].
      destruct Hn as [H|[H Hd]]; [left; exact H|right; split; [exact H|exact Hd]].
    + rewrite objectMember_skip.
      * apply IH; assumption.
      * intros f [<-|[<-|[]]]; assumption.
Qed.

End DecodingReport.

(** Decoding an object whose members for [name] and [main] are as the
    invariants say, into the zero report. *)
Lemma unmarshal_weatherData (members : list (string * json)) (n : string) (t : float64) :
  nameInv members weatherData_zero n -> mainInv members weatherData_zero t ->
  unmarshal (JObject members) weatherData_zero
  = ({| Name := n; Main := {| Kelvin := t |} |}, None).
Proof. intros Hn Hm. apply object_weatherData; assumption. Qed.

(** ** Streams and calls in a trace *)

Section Traces.

Lemma outboundCalls_app (t1 t2 : trace) :
  outboundCalls (t1 ++ t2) = outboundCalls t1 ++ outboundCalls t2.
Proof.
  induction t1 as [|e t1 IH]; [reflexivity|].
  destruct e; simpl; rewrite IH; reflexivity.
Qed.

Lemma filesRead_app (t1 t2 : trace) :
  filesRead (t1 ++ t2) = filesRead t1 ++ filesRead t2.
Proof.
  induction t1 as [|e t1 IH]; [reflexivity|].
  destruct e; simpl; rewrite IH; reflexivity.
Qed.

Lemma openBodies_app (t1 t2 : trace) :
  openBodies (t1 ++ t2) = fold_left openStep t2 (openBodies t1).
Proof. unfold openBodies. apply fold_left_app. Qed.

Variable W : World.

(** The events of one [query] open no stream that they do not close. *)
Lemma queryOf_balanced (city : string) (open : list string) :
  fold_left openStep (snd (queryOf W city)) open = open.
Proof.
  unfold queryOf.
  destruct (configOf W ".apiConfig") as [cfg|err]; [|reflexivity].
  destruct (upstream W _) as [resp|err]; [|reflexivity].
  simpl. rewrite String.eqb_refl. reflexivity.
Qed.

(** At most one GET per [query], and exactly one read of the key file. *)
Lemma queryOf_calls (city : string) :
  (length (outboundCalls (snd (queryOf W city))) <= 1)%nat
  /\ filesRead (snd (queryOf W city)) = [".apiConfig"].
Proof.
  unfold queryOf.
  destruct (configOf W ".apiConfig") as [cfg|err]; [|simpl; split; [lia|reflexivity]].
  destruct (upstream W _) as [resp|err]; simpl; split; (lia || reflexivity).
Qed.

(** By induction on the cities: calls that follow each other leave open what
    was open. *)
Lemma queryAll_balanced (cities : list string) (t : trace) :
  openBodies (snd (queryAll cities W t)) = openBodies t.
Proof.
  revert t. induction cities as [|city rest IH]; intros t; [reflexivity|].
  simpl. unfold bind. rewrite query_run.
  destruct (queryAll rest W (t ++ snd (queryOf W city))) as [others t'] eqn:E.
  simpl. change t' with (snd (others, t')). rewrite <- E, IH.
  rewrite openBodies_app. apply queryOf_balanced.
Qed.

End Traces.

(** ** What a reply looks like *)

Section Replies.

(** A reply written by [http.Error] on a fresh writer. *)
Lemma http_Error_fresh (msg : string) (code : Z) :
  status (http_Error newResponseWriter msg code) = Some code
  /\ Header_Get (http_Error newResponseWriter msg code) "Content-Type"
     = "text/plain; charset=utf-8"
  /\ body (http_Error newResponseWriter msg code) = [Text (msg +:+ nl)].
Proof.
  unfold http_Error, Header_Get, Write, WriteHeader, Header_Set. simpl.
  split; [reflexivity|]. split; [|reflexivity].
  rewrite lookup_insert_ne by discriminate. rewrite lookup_insert_eq. reflexivity.
Qed.

(** A reply written by [Encode] on a fresh writer, for a report whose
    temperature the encoder accepts. *)
Lemma reply_report (n : string) (temp : float64) :
  finite temp = true ->
  status (reply newResponseWriter (Ok {| Name := n; Main := {| Kelvin := temp |} |})) = Some 200
  /\ Header_Get (reply newResponseWriter (Ok {| Name := n; Main := {| Kelvin := temp |} |}))
       "Content-Type" = "application/json; charset=utf-8"
  /\ body (reply newResponseWriter (Ok {| Name := n; Main := {| Kelvin := temp |} |}))
     = [JSONText (JObject [("name", JString n);
                           ("main", JObject [("temp", JNumber (Float64 temp))])]);
        Text nl].
Proof.
  intros Hfin. unfold reply, Encode. simpl. unfold float64_Marshaler. simpl.
  rewrite Hfin. simpl.
  split; [reflexivity|]. split; [|reflexivity].
  unfold Header_Get. simpl. rewrite lookup_insert_eq. reflexivity.
Qed.

(** The status of the handler's reply to a result of [query]: 500 for an
    error, 200 otherwise (also when the encoder fails and nothing is written). *)
Lemma reply_status (res : result weatherData) :
  statusSent (reply newResponseWriter res)
  = match res with Err _ => 500 | Ok _ => 200 end.
Proof.
  destruct res as [d|err]; [|reflexivity].
  unfold reply, Encode. destruct (marshal d); reflexivity.
Qed.

(** What [main] registers. *)
Lemma main_registers :
  main_mux !! "/hello" = Some hello /\ main_mux !! "/weather/" = Some weatherHandler.
Proof.
  unfold main_mux. split.
  - rewrite lookup_insert_ne by discriminate. apply lookup_insert_eq.
  - apply lookup_insert_eq.
Qed.

End Replies.

(** ** The URL on its way to the server *)

Section OnTheWire.




Variable x : ascii.




End OnTheWire.

(** A world made of a server behind the client refuses what the client
    refuses. *)
Lemma viaClient_clientLike (readFile : string -> result document)
    (server : string -> result Response) :
  clientLike {| files := readFile; upstream := viaClient server |}.
Proof.
  intros rawURL Hnone. simpl. unfold viaClient. rewrite Hnone. eexists. reflexivity.
Qed.


(** ** The properties of the specification *)

(** *** The greeting *)

(** C5: [main] registers [hello] at ["/hello"], and [hello] answers every
    request, whatever its method and query string, with status 200 and the
    body ["Hello, World!"] followed by a line feed; it does nothing else. *)
Theorem C5_hello_always_200 :
  main_mux !! "/hello" = Some hello
  /\ forall (r : Request) (W : World) (t : trace),
       status (fst (hello newResponseWriter r W t)) = Some 200
       /\ statusSent (fst (hello newResponseWriter r W t)) = 200
       /\ body (fst (hello newResponseWriter r W t)) = [Text ("Hello, World!" +:+ nl)]
       /\ snd (hello newResponseWriter r W t) = t.
Proof.
  split; [apply main_registers|].
  intros r W t. repeat split.
Qed.

(** *** The key file *)

(** C6, where the program departs from it: a key file that is valid JSON but
    has no member [OpenWeatherMapApiKey] (an empty object, or the key under
    another name) is not refused with a parse error; [loadApiConfig] returns
    the zero [apiConfig], whose key is empty, and no error. *)
Theorem C6_shape_mismatch_is_accepted :
  fst (loadApiConfig ".apiConfig" emptyObjectWorld []) = Ok {| OpenWeatherMapApiKey := "" |}
  /\ fst (loadApiConfig ".apiConfig" otherKeyWorld []) = Ok {| OpenWeatherMapApiKey := "" |}.
Proof. split; reflexivity. Qed.

(** *** The query *)

Section Query.

Variables (city : string) (W : World) (t : trace) (cfg : apiConfig).

Hypothesis key_loaded : fst (loadApiConfig ".apiConfig" W t) = Ok cfg.


(** C9: when the GET of [query] succeeds, the events of the call are, in this
    order: the read of the key file, the GET, the opening of the body stream,
    its reading and its closing, whether the body decodes or not; so the call
    leaves open exactly the streams that were open before it, and so does any
    sequence of calls. *)
Theorem C9_body_closed_on_every_path (resp : Response) :
  upstream W (queryURL city (OpenWeatherMapApiKey cfg)) = Ok resp ->
  snd (query city W t)
  = t ++ [EvReadFile ".apiConfig";
          EvGet (queryURL city (OpenWeatherMapApiKey cfg));
          EvBodyOpen (queryURL city (OpenWeatherMapApiKey cfg));
          EvBodyRead (queryURL city (OpenWeatherMapApiKey cfg));
          EvBodyClose (queryURL city (OpenWeatherMapApiKey cfg))]
  /\ fst (query city W t)
     = match Unmarshal (Body resp) weatherData_zero with
       | (_, Some err) => Err err
       | (d, None) => Ok d
       end
  /\ openBodies (snd (query city W t)) = openBodies t
  /\ forall cities, openBodies (snd (queryAll cities W t)) = openBodies t.
Proof.
  intros Hup. rewrite loadApiConfig_value in key_loaded.
  rewrite query_trace, query_value, (queryOf_with_key W city cfg key_loaded), Hup.
  split; [reflexivity|]. split; [reflexivity|]. split.
  - rewrite openBodies_app. simpl. rewrite String.eqb_refl. reflexivity.
  - intros cities. apply queryAll_balanced.
Qed.

End Query.



(** C9 at work: a response whose body does not decode. *)
Lemma C9_witness :
  openBodies (snd (query "London" htmlWorld [])) = openBodies []
  /\ fst (query "London" htmlWorld [])
     = Err (SyntaxError "invalid character '<' looking for beginning of value").
Proof.
  pose proof (C9_body_closed_on_every_path "London" htmlWorld []
                {| OpenWeatherMapApiKey := "abc" |} eq_refl
                {| StatusCode := 502;
                   Body := Malformed "invalid character '<' looking for beginning of value" |}
                eq_refl) as (_ & Hres & Hopen & _).
  split; [exact Hopen|exact Hres].
Defined.

(** *** The weather handler: the path *)

(** C2, as stated, fails: for the path ["/weather/"] the body of the 400 reply
    is not ["city name not provided"], with or without a line feed after it
    (the program's message starts with a capital letter). *)
Lemma C2_counterexample :
  status (fst (weatherHandler newResponseWriter (request "/weather/") londonWorld [])) = Some 400
  /\ body (fst (weatherHandler newResponseWriter (request "/weather/") londonWorld []))
     <> [Text "city name not provided"]
  /\ body (fst (weatherHandler newResponseWriter (request "/weather/") londonWorld []))
     <> [Text ("city name not provided" +:+ nl)].
Proof. repeat split; discriminate. Qed.

(** C2, amended: for a path ["/weather/" + c], if [c] is empty the handler
    replies 400 with the plain-text body ["City name not provided"] followed
    by a line feed, and reads no file and attempts no GET; otherwise it runs
    [query c] and replies to its result, so that the key file is read and, if
    the key loads, the GET for city [c] is attempted. *)
Theorem C2_empty_city_400_else_query (c : string) (r : Request) (W : World) (t : trace) :
  Path (url r) = "/weather/" +:+ c ->
  (c = "" ->
     status (fst (weatherHandler newResponseWriter r W t)) = Some 400
     /\ Header_Get (fst (weatherHandler newResponseWriter r W t)) "Content-Type"
        = "text/plain; charset=utf-8"
     /\ body (fst (weatherHandler newResponseWriter r W t))
        = [Text ("City name not provided" +:+ nl)]
     /\ snd (weatherHandler newResponseWriter r W t) = t)
  /\ (c <> "" ->
        weatherHandler newResponseWriter r W t
        = (reply newResponseWriter (fst (query c W t)), snd (query c W t))
        /\ filesRead (snd (weatherHandler newResponseWriter r W t))
           = filesRead t ++ [".apiConfig"]
        /\ forall cfg, fst (loadApiConfig ".apiConfig" W t) = Ok cfg ->
             outboundCalls (snd (weatherHandler newResponseWriter r W t))
             = outboundCalls t ++ [queryURL c (OpenWeatherMapApiKey cfg)]).
Proof.
  intros Hp. split.
  - intros ->. rewrite (weatherHandler_no_city W t _ _ Hp). simpl fst. simpl snd.
    destruct (http_Error_fresh "City name not provided" StatusBadRequest) as (Hs & Hh & Hb).
    repeat split; assumption.
  - intros Hc. rewrite (weatherHandler_city W t c _ _ Hp Hc). simpl fst. simpl snd.
    split; [reflexivity|]. rewrite query_trace. split.
    + rewrite filesRead_app. f_equal. apply queryOf_calls.
    + intros cfg Hcfg. rewrite loadApiConfig_value in Hcfg.
      rewrite outboundCalls_app, (queryOf_with_key W c cfg Hcfg). f_equal.
      destruct (upstream W _); reflexivity.
Qed.

(** C2 at work: the path ["/weather/London"]. *)
Lemma C2_witness :
  weatherHandler newResponseWriter (request "/weather/London") londonWorld []
  = (reply newResponseWriter (fst (query "London" londonWorld [])),
     snd (query "London" londonWorld [])).
Proof.
  apply (C2_empty_city_400_else_query "London" (request "/weather/London") londonWorld []).
  - reflexivity.
  - discriminate.
Defined.

(** C10: the handler that [main] registers at ["/weather/"], on a path whose
    rest after ["/weather/"] contains slashes, cuts the path in three parts
    only, the third being the whole rest; it runs [query] on it and replies to
    its result, with status 200 or 500, never 400 or 404. *)
Theorem C10_rest_with_slashes_is_the_city (rest : string) (r : Request) (W : World) (t : trace) :
  Contains rest "/" = true ->
  Path (url r) = "/weather/" +:+ rest ->
  main_mux !! "/weather/" = Some weatherHandler
  /\ SplitN (Path (url r)) "/" 3 = [""; "weather"; rest]
  /\ weatherHandler newResponseWriter r W t
     = (reply newResponseWriter (fst (query rest W t)), snd (query rest W t))
  /\ (statusSent (fst (weatherHandler newResponseWriter r W t)) = 200
      \/ statusSent (fst (weatherHandler newResponseWriter r W t)) = 500)
  /\ statusSent (fst (weatherHandler newResponseWriter r W t)) <> StatusBadRequest
  /\ statusSent (fst (weatherHandler newResponseWriter r W t)) <> StatusNotFound.
Proof.
  intros Hs Hp. apply Contains_slash_nonempty in Hs.
  split; [apply main_registers|].
  split; [rewrite Hp; apply SplitN_weather|].
  rewrite (weatherHandler_city W t rest _ _ Hp Hs). simpl fst.
  split; [reflexivity|]. rewrite reply_status.
  destruct (fst (query rest W t)); (split; [auto|split; discriminate]).
Qed.

(** C10 at work: the path ["/weather/a/b/c"]. *)
Lemma C10_witness :
  weatherHandler newResponseWriter (request "/weather/a/b/c") londonWorld []
  = (reply newResponseWriter (fst (query "a/b/c" londonWorld [])),
     snd (query "a/b/c" londonWorld [])).
Proof.
  apply (C10_rest_with_slashes_is_the_city "a/b/c" (request "/weather/a/b/c") londonWorld []).
  - reflexivity.
  - reflexivity.
Defined.

(** *** The weather handler: a request with a city *)

Section CityRequest.

Variables (c : string) (r : Request) (W : World) (t : trace).

Hypothesis city_given : c <> "".
Hypothesis path_of_city : Path (url r) = "/weather/" +:+ c.

(** The handler's reply is the reply to [query c], and what it did is what
    [query c] did. *)
Lemma reply_sent_eq :
  fst (weatherHandler newResponseWriter r W t) = reply newResponseWriter (fst (query c W t)).
Proof. rewrite (weatherHandler_city W t c _ _ path_of_city city_given). reflexivity. Qed.

Lemma events_eq : snd (weatherHandler newResponseWriter r W t) = snd (query c W t).
Proof. rewrite (weatherHandler_city W t c _ _ path_of_city city_given). reflexivity. Qed.

(** C3: if the key file cannot be loaded, a request for a city that is not
    empty gets status 500, and all the handler did is one read of the key
    file: no GET is attempted. *)
Theorem C3_config_failure_500_no_outbound (err : error) :
  fst (loadApiConfig ".apiConfig" W t) = Err err ->
  statusSent (fst (weatherHandler newResponseWriter r W t)) = 500
  /\ snd (weatherHandler newResponseWriter r W t) = t ++ [EvReadFile ".apiConfig"]
  /\ outboundCalls (snd (weatherHandler newResponseWriter r W t)) = outboundCalls t.
Proof.
  intros Hcfg. rewrite loadApiConfig_value in Hcfg.
  rewrite reply_sent_eq, events_eq, query_value, query_trace.
  unfold queryOf. rewrite Hcfg. simpl.
  split; [reflexivity|]. split; [reflexivity|].
  rewrite outboundCalls_app. simpl. apply app_nil_r.
Qed.

(** C4: when [query] fails for a city that is not empty, for whichever of the
    three causes, the reply is the one [http.Error] writes for the error's
    message and status 500: plain text, the message followed by a line feed,
    nothing else.  The handler does nothing after the failure: the key file
    was read once and at most one GET was attempted. *)
Theorem C4_query_failure_500_raw_message (err : error) :
  fst (query c W t) = Err err ->
  failureCause W c t err
  /\ fst (weatherHandler newResponseWriter r W t)
     = http_Error newResponseWriter (Error err) StatusInternalServerError
  /\ status (fst (weatherHandler newResponseWriter r W t)) = Some 500
  /\ Header_Get (fst (weatherHandler newResponseWriter r W t)) "Content-Type"
     = "text/plain; charset=utf-8"
  /\ body (fst (weatherHandler newResponseWriter r W t)) = [Text (Error err +:+ nl)]
  /\ snd (weatherHandler newResponseWriter r W t) = snd (query c W t)
  /\ filesRead (snd (weatherHandler newResponseWriter r W t)) = filesRead t ++ [".apiConfig"]
  /\ (length (outboundCalls (snd (weatherHandler newResponseWriter r W t)))
      <= length (outboundCalls t) + 1)%nat.
Proof.
  intros Hq. split; [apply query_failure_cause; exact Hq|].
  rewrite reply_sent_eq, events_eq, Hq. simpl reply.
  destruct (http_Error_fresh (Error err) StatusInternalServerError) as (Hs & Hh & Hb).
  split; [reflexivity|]. split; [exact Hs|]. split; [exact Hh|]. split; [exact Hb|].
  split; [reflexivity|].
  destruct (queryOf_calls W c) as [Hcalls Hfiles].
  rewrite query_trace, filesRead_app, outboundCalls_app, length_app, Hfiles.
  split; [reflexivity|lia].
Qed.

Variables (cfg : apiConfig) (resp : Response) (members : list (string * json)).

Hypothesis key_loaded : fst (loadApiConfig ".apiConfig" W t) = Ok cfg.
Hypothesis answered : upstream W (queryURL c (OpenWeatherMapApiKey cfg)) = Ok resp.
Hypothesis body_is_object : Body resp = Doc (JObject members).

(** The result of [query] is what the decoder makes of the members. *)
Lemma query_decodes :
  fst (query c W t)
  = match unmarshal (JObject members) weatherData_zero with
    | (_, Some err) => Err err
    | (d, None) => Ok d
    end.
Proof.
  rewrite loadApiConfig_value in key_loaded.
  rewrite query_value, (queryOf_with_key W c cfg key_loaded), answered. simpl.
  unfold decodedOf. rewrite body_is_object. reflexivity.
Qed.

(** C1, amended: when the body is an object in which [name] is the only member
    whose key is [name] up to the case of letters, with a string, and [main]
    the only one whose key is [main] up to case, an object in which [temp] is
    the only member whose key is [temp] up to case, with a number of the
    range of [float64], the reply has status 200, the content type
    [application/json; charset=utf-8], and for body the object of these two
    members alone, followed by a line feed. *)
Theorem C1_report_keeps_name_and_temp_only (inner : list (string * json))
    (n : string) (temp : float64) :
  membersFor "name" members = [("name", JString n)] ->
  membersFor "main" members = [("main", JObject inner)] ->
  membersFor "temp" inner = [("temp", JNumber (Float64 temp))] ->
  finite temp = true ->
  status (fst (weatherHandler newResponseWriter r W t)) = Some 200
  /\ Header_Get (fst (weatherHandler newResponseWriter r W t)) "Content-Type"
     = "application/json; charset=utf-8"
  /\ body (fst (weatherHandler newResponseWriter r W t))
     = [JSONText (JObject [("name", JString n);
                           ("main", JObject [("temp", JNumber (Float64 temp))])]);
        Text nl].
Proof.
  intros Hn Hm Ht Hfin.
  rewrite reply_sent_eq, query_decodes.
  rewrite (unmarshal_weatherData members n temp).
  - apply reply_report. exact Hfin.
  - left. exact Hn.
  - left. exists inner. split; assumption.
Qed.

(** Behind C7: [query] does not look at the status code.  When the upstream
    answers, with 401 or any other status, and the body is an object without
    a member whose key is [name] or [main] up to case (as the upstream's error
    bodies are), [query] returns the zero report and the handler replies 200
    with that report, where lines 62 to 64 of [main.go] expect an error. *)
Theorem C7_unauthorized_answer_is_200 :
  membersFor "name" members = [] ->
  membersFor "main" members = [] ->
  fst (query c W t) = Ok weatherData_zero
  /\ status (fst (weatherHandler newResponseWriter r W t)) = Some 200
  /\ body (fst (weatherHandler newResponseWriter r W t))
     = [JSONText (JObject [("name", JString "");
                           ("main", JObject [("temp", JNumber (Float64 0%float))])]);
        Text nl].
Proof.
  intros Hn Hm.
  rewrite reply_sent_eq, query_decodes.
  rewrite (unmarshal_weatherData members "" 0%float).
  - repeat split.
  - right. split; [exact Hn|reflexivity].
  - right. split; [exact Hm|reflexivity].
Qed.

End CityRequest.

(** C3 at work: a world without the key file. *)
Lemma C3_witness :
  statusSent (fst (weatherHandler newResponseWriter (request "/weather/London") noConfigWorld [])) = 500
  /\ snd (weatherHandler newResponseWriter (request "/weather/London") noConfigWorld [])
     = [] ++ [EvReadFile ".apiConfig"]
  /\ outboundCalls (snd (weatherHandler newResponseWriter (request "/weather/London") noConfigWorld []))
     = outboundCalls [].
Proof.
  apply (C3_config_failure_500_no_outbound "London" (request "/weather/London") noConfigWorld []
           ltac:(discriminate) eq_refl
           (PathError "open .apiConfig: no such file or directory")).
  reflexivity.
Defined.

(** C4 at work: an upstream that answers with a page that is not JSON. *)
Lemma C4_witness :
  body (fst (weatherHandler newResponseWriter (request "/weather/London") htmlWorld []))
  = [Text (Error (SyntaxError "invalid character '<' looking for beginning of value") +:+ nl)].
Proof.
  apply (C4_query_failure_500_raw_message "London" (request "/weather/London") htmlWorld []
           ltac:(discriminate) eq_refl
           (SyntaxError "invalid character '<' looking for beginning of value")).
  reflexivity.
Defined.

(** C1, as stated, fails: a body with the string member [name], the member
    [main] with the number [temp], and one more member, [NAME] with a number,
    gets status 500 and a plain-text reply, since [NAME] is decoded into the
    field [Name] too and does not fit it. *)
Lemma C1_counterexample :
  In ("name", JString "London") shoutingMembers
  /\ In ("main", JObject [("temp", JNumber (Float64 288.5%float))]) shoutingMembers
  /\ status (fst (weatherHandler newResponseWriter (request "/weather/London") shoutingWorld []))
     = Some 500
  /\ Header_Get (fst (weatherHandler newResponseWriter (request "/weather/London")
                        shoutingWorld [])) "Content-Type"
     = "text/plain; charset=utf-8".
Proof.
  split; [left; reflexivity|]. split; [right; left; reflexivity|].
  split; [reflexivity|]. vm_compute. reflexivity.
Qed.

(** C1 at work: the body that the upstream sends for London. *)
Lemma C1_witness :
  body (fst (weatherHandler newResponseWriter (request "/weather/London") londonWorld []))
  = [JSONText (JObject [("name", JString "London");
                        ("main", JObject [("temp", JNumber (Float64 288.5%float))])]);
     Text nl].
Proof.
  apply (C1_report_keeps_name_and_temp_only "London" (request "/weather/London") londonWorld []
           ltac:(discriminate) eq_refl
           {| OpenWeatherMapApiKey := "abc" |}
           {| StatusCode := 200; Body := Doc (JObject londonMembers) |}
           londonMembers eq_refl eq_refl eq_refl
           [("temp", JNumber (Float64 288.5%float)); ("pressure", JNumber (Float64 1012%float))]
           "London" 288.5%float).
  - reflexivity.
  - reflexivity.
  - reflexivity.
  - reflexivity.
Defined.

(** C7, where the program departs from it: with an empty key in the key file
    and an upstream that answers 401 with its error body, [query] does not
    fail; it returns the zero report and the handler replies 200 with it. *)
Theorem C7_unauthorized_evaluates_to_200 :
  upstream unauthorizedWorld (queryURL "London" "")
  = Ok {| StatusCode := 401; Body := Doc (JObject unauthorizedMembers) |}
  /\ fst (query "London" unauthorizedWorld []) = Ok weatherData_zero
  /\ status (fst (weatherHandler newResponseWriter (request "/weather/London")
                    unauthorizedWorld [])) = Some 200
  /\ body (fst (weatherHandler newResponseWriter (request "/weather/London")
                  unauthorizedWorld []))
     = [JSONText (JObject [("name", JString "");
                           ("main", JObject [("temp", JNumber (Float64 0%float))])]);
        Text nl].
Proof. repeat split. Qed.

(** The same at work: an empty key and the 401 answer of the upstream. *)
Lemma C7_witness :
  fst (query "London" unauthorizedWorld []) = Ok weatherData_zero
  /\ status (fst (weatherHandler newResponseWriter (request "/weather/London")
                    unauthorizedWorld [])) = Some 200.
Proof.
  pose proof (C7_unauthorized_answer_is_200 "London" (request "/weather/London")
                unauthorizedWorld [] ltac:(discriminate) eq_refl
                {| OpenWeatherMapApiKey := "" |}
                {| StatusCode := 401; Body := Doc (JObject unauthorizedMembers) |}
                unauthorizedMembers eq_refl eq_refl eq_refl eq_refl eq_refl)
    as (Hq & Hs & _).
  split; [exact Hq|exact Hs].
Defined.

(** * More properties of the program *)

(** ** Lists of members with one member for a field *)

Section OneMember.

Context {A : Type} (p : A -> bool).

Lemma filter_nil_none (l : list A) :
  List.filter p l = [] -> forall x, In x l -> p x = false.
Proof.
  induction l as [|a l IH]; intros H x Hx; [destruct Hx|].
  simpl in H. destruct (p a) eqn:Ea; [discriminate H|].
  destruct Hx as [<-|Hx]; [exact Ea|apply IH; assumption].
Qed.

(** A list with one element for [p] is that element between two lists
    without any. *)
Lemma filter_one_split (l : list A) (x : A) :
  List.filter p l = [x] ->
  exists before after,
    l = before ++ x :: after /\ List.filter p before = [] /\ List.filter p after = [].
Proof.
  induction l as [|a l IH]; intros H; [discriminate H|].
  simpl in H. destruct (p a) eqn:Ea.
  - injection H as -> H. exists [], l. repeat split; assumption.
  - destruct (IH H) as (before & after & -> & Hb & Ha).
    exists (a :: before), after. simpl. rewrite Ea. repeat split; assumption.
Qed.

End OneMember.

Section Skipping.

Context {S : Type} (structName : string) (fields : list (field S)) (ctx : errorContext).

(** Members that select no field leave the struct and the saved error alone. *)
Lemma object_skip (members : list (string * json)) (acc : S * option error) :
  (forall member, In member members ->
     forall f, In f fields -> keyIs (jsonName f) member = false) ->
  fold_left (objectMember structName fields ctx) members acc = acc.
Proof.
  revert acc. induction members as [|member members IH]; intros acc H; [reflexivity|].
  cbn [fold_left]. rewrite objectMember_skip.
  - apply IH. intros m Hm. apply H. right. exact Hm.
  - apply H. left. reflexivity.
Qed.

(** The field that a key selects is one of the fields. *)
Lemma findField_In (key : string) (f : field S) :
  findField fields key = Some f -> In f fields.
Proof.
  unfold findField. intros H.
  destruct (List.find _ fields) as [g|] eqn:E.
  - injection H as <-. apply (List.find_some _ _ E).
  - apply (List.find_some _ _ H).
Qed.

(** Once an error is saved, it stays. *)
Lemma objectMember_keeps_error (acc : S * option error) (member : string * json) (err : error) :
  snd acc = Some err ->
  snd (objectMember structName fields ctx acc member) = Some err.
Proof.
  intros H. unfold objectMember. destruct acc as [s saved]. simpl in H. subst saved.
  destruct (findField fields (fst member)) as [f|]; [|reflexivity].
  destruct (store _ _ _) as [x e]. reflexivity.
Qed.

Lemma object_keeps_error (members : list (string * json)) (acc : S * option error) (err : error) :
  snd acc = Some err ->
  snd (fold_left (objectMember structName fields ctx) members acc) = Some err.
Proof.
  revert acc. induction members as [|member members IH]; intros acc H; [exact H|].
  cbn [fold_left]. apply IH. apply objectMember_keeps_error. exact H.
Qed.

End Skipping.

(** A struct with one field: the field is selected by the keys that are its
    name up to case. *)
Lemma findField_single {S : Type} (F : field S) (member : string * json) :
  findField [F] (fst member) = if keyIs (jsonName F) member then Some F else None.
Proof.
  unfold findField, keyIs. simpl.
  destruct (String.eqb_spec (jsonName F) (fst member)) as [E|_].
  - rewrite E, String.eqb_refl. reflexivity.
  - destruct (String.eqb _ _); reflexivity.
Qed.

(** The fields of [weatherData] by the keys that select them. *)
Lemma findField_weatherData (member : string * json) :
  findField weatherData_fields (fst member)
  = if keyIs "name" member then List.nth_error weatherData_fields 0
    else if keyIs "main" member then List.nth_error weatherData_fields 1
    else None.
Proof.
  unfold findField, keyIs, weatherData_fields. cbn [List.find jsonName List.nth_error].
  destruct (String.eqb_spec "name" (fst member)) as [E|_].
  - rewrite <- E. reflexivity.
  - destruct (String.eqb_spec "main" (fst member)) as [E|_].
    + rewrite <- E. reflexivity.
    + destruct (String.eqb (foldName "name") _); [reflexivity|].
      destruct (String.eqb (foldName "main") _); reflexivity.
Qed.

(** ** The key file *)

Section KeyFile.

Variables (filename : string) (W : World) (t : trace).

(** The field of [apiConfig] by the keys that select it. *)
Lemma findField_apiConfig (member : string * json) :
  findField apiConfig_fields (fst member)
  = if keyIs "OpenWeatherMapApiKey" member then List.nth_error apiConfig_fields 0 else None.
Proof. unfold apiConfig_fields. rewrite (findField_single _ member). reflexivity. Qed.

(** An object with one member for the key, decoded into the zero [apiConfig]:
    the members around it are skipped. *)
Lemma object_apiConfig_one (members : list (string * json)) (member : string * json) :
  membersFor "OpenWeatherMapApiKey" members = [member] ->
  unmarshal (JObject members) apiConfig_zero
  = objectMember "apiConfig" apiConfig_fields noContext (apiConfig_zero, None) member
  /\ keyIs "OpenWeatherMapApiKey" member = true.
Proof.
  intros H. unfold membersFor in H.
  assert (Hk : keyIs "OpenWeatherMapApiKey" member = true).
  { assert (Hin : In member (List.filter (keyIs "OpenWeatherMapApiKey") members))
      by (rewrite H; left; reflexivity).
    apply List.filter_In in Hin. apply Hin. }
  split; [|exact Hk].
  destruct (filter_one_split _ _ _ H) as (before & after & -> & Hb & Ha).
  unfold unmarshal. simpl. unfold object. rewrite fold_left_app. cbn [fold_left].
  rewrite (object_skip "apiConfig" apiConfig_fields noContext before).
  - apply object_skip. intros m Hm f [<-|[]]. apply (filter_nil_none _ _ Ha m Hm).
  - intros m Hm f [<-|[]]. apply (filter_nil_none _ _ Hb m Hm).
Qed.

(** X1: a key file that is an object with one member whose key is
    [OpenWeatherMapApiKey] up to the case of letters, with a string, loads to
    the [apiConfig] with that string, whatever the other members are; the
    file is read once. *)
Theorem X1_key_file_loads_its_key (members : list (string * json)) (k key : string) :
  files W filename = Ok (Doc (JObject members)) ->
  membersFor "OpenWeatherMapApiKey" members = [(k, JString key)] ->
  loadApiConfig filename W t
  = (Ok {| OpenWeatherMapApiKey := key |}, t ++ [EvReadFile filename]).
Proof.
  intros Hfile Hone. rewrite loadApiConfig_run. f_equal.
  unfold configOf. rewrite Hfile. unfold Unmarshal.
  destruct (object_apiConfig_one members _ Hone) as [-> Hk].
  unfold objectMember. rewrite findField_apiConfig, Hk. reflexivity.
Qed.

(** X2: when the one member for the key holds something that is neither a
    string nor [null], [loadApiConfig] fails with the decoder's type error,
    which names the value's kind, the struct and the key as the file writes
    it. *)
Theorem X2_key_of_wrong_type_is_refused (members : list (string * json)) (k : string) (v : json) :
  files W filename = Ok (Doc (JObject members)) ->
  membersFor "OpenWeatherMapApiKey" members = [(k, v)] ->
  fitsString v = false ->
  fst (loadApiConfig filename W t)
  = Err (UnmarshalTypeError (valueKind v) "string" "apiConfig" k).
Proof.
  intros Hfile Hone Hv. rewrite loadApiConfig_value.
  unfold configOf. rewrite Hfile. unfold Unmarshal.
  destruct (object_apiConfig_one members _ Hone) as [-> Hk].
  unfold objectMember. rewrite findField_apiConfig, Hk.
  destruct v; try discriminate Hv; reflexivity.
Qed.

(** X3: a key file that holds [null] loads to the zero [apiConfig] without an
    error; one that holds a bool, a number, a string or an array fails with
    the type error for [main.apiConfig]. *)
Theorem X3_key_file_that_is_no_object (j : json) :
  files W filename = Ok (Doc j) ->
  (j = JNull -> fst (loadApiConfig filename W t) = Ok apiConfig_zero)
  /\ (fitsStruct j = false ->
      fst (loadApiConfig filename W t)
      = Err (UnmarshalTypeError (valueKind j) "main.apiConfig" "" "")).
Proof.
  intros Hfile. rewrite loadApiConfig_value. unfold configOf. rewrite Hfile.
  split.
  - intros ->. reflexivity.
  - intros Hj. destruct j; try discriminate Hj; reflexivity.
Qed.

End KeyFile.

(** X1 at work: the key under a name in lower case, after another member. *)
Lemma X1_witness :
  loadApiConfig ".apiConfig" lowerCaseKeyWorld []
  = (Ok {| OpenWeatherMapApiKey := "abc" |}, [] ++ [EvReadFile ".apiConfig"]).
Proof.
  apply (X1_key_file_loads_its_key ".apiConfig" lowerCaseKeyWorld [] lowerCaseKeyMembers
           "openweathermapapikey" "abc").
  - reflexivity.
  - reflexivity.
Defined.

(** X2 at work: a number for the key. *)
Lemma X2_witness :
  fst (loadApiConfig ".apiConfig" numberKeyWorld [])
  = Err (UnmarshalTypeError "number" "string" "apiConfig" "openweathermapapikey").
Proof.
  apply (X2_key_of_wrong_type_is_refused ".apiConfig" numberKeyWorld []
           [("openweathermapapikey", JNumber (Float64 12345%float))]
           "openweathermapapikey" (JNumber (Float64 12345%float))).
  - reflexivity.
  - reflexivity.
  - reflexivity.
Defined.

(** X3 at work: a key file that holds an array. *)
Lemma X3_witness :
  fst (loadApiConfig ".apiConfig" arrayKeyWorld [])
  = Err (UnmarshalTypeError "array" "main.apiConfig" "" "").
Proof.
  apply (X3_key_file_that_is_no_object ".apiConfig" arrayKeyWorld [] (JArray [JString "abc"])).
  - reflexivity.
  - reflexivity.
Defined.

(** ** The path, for every path *)

Section AnyPath.

(** One step of [Cut] at a slash. *)
Lemma Cut_slash_cons (ch : ascii) (s : string) :
  Cut (String ch s) "/"
  = if Ascii.eqb "/" ch then Some ("", s)
    else match Cut s "/" with
         | Some (before, after) => Some (String ch before, after)
         | None => None
         end.
Proof. cbn [Cut CutPrefix]. destruct (Ascii.eqb "/" ch); reflexivity. Qed.

(** Cutting at the first slash, when the text before it has none. *)
Lemma Cut_slash_free (a rest : string) :
  Contains a "/" = false -> Cut (a +:+ "/" +:+ rest) "/" = Some (a, rest).
Proof.
  induction a as [|ch a IH]; intros Hfree; [reflexivity|].
  unfold Contains in Hfree. rewrite Cut_slash_cons in Hfree.
  change (String ch a +:+ "/" +:+ rest) with (String ch (a +:+ "/" +:+ rest)).
  rewrite Cut_slash_cons.
  destruct (Ascii.eqb "/" ch); [discriminate Hfree|].
  rewrite IH; [reflexivity|].
  unfold Contains. destruct (Cut a "/") as [[before after]|]; [discriminate Hfree|reflexivity].
Qed.

(** On a path of two bytes or more the cap of [SplitN] on the number of parts
    does not bite. *)
Lemma SplitN_long (path : string) :
  (2 <= String.length path)%nat -> SplitN path "/" 3 = split_loop 2 path "/".
Proof.
  intros Hlen. unfold SplitN.
  replace (3 =? 0) with false by reflexivity.
  replace (3 <? 0) with false by reflexivity.
  replace (len path + 1 <? 3) with false; [reflexivity|].
  symmetry. apply Z.ltb_ge. unfold len. lia.
Qed.

(** The parts that the handler looks at: three, the third being what follows
    the second slash, or fewer than three when there are not two slashes. *)
Lemma SplitN_three (path : string) :
  match afterSecondSlash path with
  | Some c => exists a b, SplitN path "/" 3 = [a; b; c]
  | None => (length (SplitN path "/" 3) < 3)%nat
  end.
Proof.
  destruct path as [|c1 [|c2 rest]].
  - simpl. lia.
  - change (SplitN (String c1 "") "/" 3) with (split_loop 1 (String c1 "") "/").
    unfold afterSecondSlash. cbn [split_loop]. rewrite Cut_slash_cons.
    destruct (Ascii.eqb "/" c1); simpl; lia.
  - rewrite SplitN_long by (simpl; lia).
    unfold afterSecondSlash. cbn [split_loop].
    destruct (Cut (String c1 (String c2 rest)) "/") as [[a after]|]; [|simpl; lia].
    destruct (Cut after "/") as [[b c]|]; [|simpl; lia].
    exists a, b. reflexivity.
Qed.

Variables (w : ResponseWriter) (r : Request) (W : World) (t : trace).

(** The handler, by what follows the second slash of the path. *)
Lemma weatherHandler_by_path :
  weatherHandler w r W t
  = match afterSecondSlash (Path (url r)) with
    | Some c =>
        if String.eqb c "" then (http_Error w "City name not provided" StatusBadRequest, t)
        else (reply w (fst (query c W t)), snd (query c W t))
    | None => (http_Error w "City name not provided" StatusBadRequest, t)
    end.
Proof.
  unfold weatherHandler. pose proof (SplitN_three (Path (url r))) as Hparts.
  destruct (afterSecondSlash (Path (url r))) as [c|].
  - destruct Hparts as (a & b & ->). simpl.
    destruct (String.eqb c ""); [reflexivity|].
    unfold bind. destruct (query c W t) as [[d|err] t']; reflexivity.
  - destruct (SplitN (Path (url r)) "/" 3) as [|p1 [|p2 [|p3 more]]]; try reflexivity.
    simpl in Hparts. lia.
Qed.

(** X4: whatever the path is, the handler either refuses the request with the
    400 reply and does nothing else, when the path has no second slash or
    nothing after it, or runs [query] on all that follows the second slash and
    replies to its result. *)
Theorem X4_handler_on_any_path :
  (afterSecondSlash (Path (url r)) = None \/ afterSecondSlash (Path (url r)) = Some "") /\
  weatherHandler w r W t = (http_Error w "City name not provided" StatusBadRequest, t)
  \/ exists c, c <> "" /\ afterSecondSlash (Path (url r)) = Some c /\
       weatherHandler w r W t = (reply w (fst (query c W t)), snd (query c W t)).
Proof.
  rewrite weatherHandler_by_path.
  destruct (afterSecondSlash (Path (url r))) as [c|]; [|left; split; [left|]; reflexivity].
  destruct (String.eqb_spec c "") as [->|Hc].
  - left. split; [right|]; reflexivity.
  - right. exists c. repeat split; assumption.
Qed.

(** X5: the handler does not look at what stands before the second slash: on
    a path [a/b/c] with no slash in [a] and [b] and a [c] that is not empty,
    it runs [query c], also when [a/b] is not ["/weather"]. *)
Theorem X5_handler_ignores_the_first_two_parts (a b c : string) :
  Contains a "/" = false ->
  Contains b "/" = false ->
  c <> "" ->
  Path (url r) = a +:+ "/" +:+ b +:+ "/" +:+ c ->
  weatherHandler w r W t = (reply w (fst (query c W t)), snd (query c W t)).
Proof.
  intros Ha Hb Hc Hp. rewrite weatherHandler_by_path, Hp.
  unfold afterSecondSlash. rewrite (Cut_slash_free a _ Ha), (Cut_slash_free b _ Hb).
  apply String.eqb_neq in Hc. rewrite Hc. reflexivity.
Qed.

End AnyPath.

(** X5 at work: a path under another first part. *)
Lemma X5_witness :
  weatherHandler newResponseWriter (request "/forecast/Paris") londonWorld []
  = (reply newResponseWriter (fst (query "Paris" londonWorld [])),
     snd (query "Paris" londonWorld [])).
Proof.
  apply (X5_handler_ignores_the_first_two_parts newResponseWriter (request "/forecast/Paris")
           londonWorld [] "" "forecast" "Paris").
  - reflexivity.
  - reflexivity.
  - discriminate.
  - reflexivity.
Defined.

(** ** The effects of [query], in every world *)

Section QueryEffects.

Variable W : World.

(** X6: whatever the city and the world, [query] first reads the key file,
    once, then attempts at most one GET, and none when the key file did not
    load; nothing else is read, and every body stream it opened is closed when
    it returns. *)
Theorem X6_query_reads_once_gets_at_most_once (city : string) (t : trace) :
  exists evs,
    snd (query city W t) = t ++ EvReadFile ".apiConfig" :: evs
    /\ filesRead evs = []
    /\ (length (outboundCalls evs) <= 1)%nat
    /\ (forall err, fst (loadApiConfig ".apiConfig" W t) = Err err -> evs = [])
    /\ openBodies (snd (query city W t)) = openBodies t.
Proof.
  rewrite query_trace, loadApiConfig_value, openBodies_app, queryOf_balanced.
  unfold queryOf.
  destruct (configOf W ".apiConfig") as [cfg|err0].
  - destruct (upstream W _) as [resp|err1]; simpl;
      eexists; (split; [reflexivity|]); simpl;
      (split; [reflexivity|]); (split; [lia|]); (split; [discriminate|reflexivity]).
  - exists []. simpl. repeat split; lia.
Qed.

(** X7: calls that follow each other do not share anything: each reads the
    key file again, so it is read once per call; each call returns what it
    would return as the first call; and there are no more GETs than calls. *)
Theorem X7_calls_do_not_interfere (cities : list string) (t : trace) :
  fst (queryAll cities W t) = List.map (fun city => fst (query city W [])) cities
  /\ filesRead (snd (queryAll cities W t))
     = filesRead t ++ List.repeat ".apiConfig" (length cities)
  /\ (length (outboundCalls (snd (queryAll cities W t)))
      <= length (outboundCalls t) + length cities)%nat.
Proof.
  revert t. induction cities as [|city rest IH]; intros t.
  - simpl. rewrite app_nil_r. repeat split. lia.
  - simpl. unfold bind. rewrite query_run.
    destruct (queryAll rest W (t ++ snd (queryOf W city))) as [others t'] eqn:E.
    specialize (IH (t ++ snd (queryOf W city))). rewrite E in IH. simpl in IH |- *.
    destruct IH as (Hres & Hfiles & Hcalls).
    destruct (queryOf_calls W city) as [Hone Hfile].
    rewrite filesRead_app, Hfile in Hfiles. rewrite outboundCalls_app, length_app in Hcalls.
    split; [rewrite query_value, Hres; reflexivity|].
    split; [rewrite Hfiles, <- app_assoc; reflexivity|lia].
Qed.

End QueryEffects.

(** ** The upstream body, member by member *)

Section ReportMembers.

Variable ctx : errorContext.

(** Members that select no field of [weatherData] can be left out. *)
Lemma object_weatherData_filter (members : list (string * json))
    (acc : weatherData * option error) :
  fold_left (objectMember "weatherData" weatherData_fields ctx) members acc
  = fold_left (objectMember "weatherData" weatherData_fields ctx)
      (List.filter forReport members) acc.
Proof.
  revert acc. induction members as [|member members IH]; intros acc; [reflexivity|].
  simpl List.filter. unfold forReport at 1.
  destruct (keyIs "name" member) eqn:En; [|destruct (keyIs "main" member) eqn:Em];
    cbn [orb fold_left]; try apply IH.
  rewrite objectMember_skip; [apply IH|].
  intros f [<-|[<-|[]]]; assumption.
Qed.

(** A key cannot select both fields. *)
Lemma name_or_main (member : string * json) :
  keyIs "main" member = true -> keyIs "name" member = false.
Proof.
  unfold keyIs. intros Hm. apply String.eqb_eq in Hm.
  destruct (String.eqb_spec (foldName "name") (foldName (fst member))) as [Hn|]; [|reflexivity].
  rewrite <- Hm in Hn. discriminate Hn.
Qed.

(** A member for [name] or [main] whose value does not fit the field saves an
    error, unless one is saved already. *)
Lemma objectMember_misfit (acc : weatherData * option error) (member : string * json) :
  (keyIs "name" member = true /\ fitsString (snd member) = false)
  \/ (keyIs "main" member = true /\ fitsStruct (snd member) = false) ->
  exists err, snd (objectMember "weatherData" weatherData_fields ctx acc member) = Some err.
Proof.
  intros Hbad. unfold objectMember. destruct acc as [d saved].
  rewrite findField_weatherData.
  destruct Hbad as [[Hk Hv]|[Hk Hv]].
  - rewrite Hk. simpl.
    destruct (snd member); try discriminate Hv; destruct saved; simpl; eauto.
  - rewrite (name_or_main _ Hk), Hk. simpl.
    destruct (snd member); try discriminate Hv; destruct saved; simpl; eauto.
Qed.

Lemma object_misfit (members : list (string * json)) (member : string * json)
    (acc : weatherData * option error) :
  In member members ->
  (keyIs "name" member = true /\ fitsString (snd member) = false)
  \/ (keyIs "main" member = true /\ fitsStruct (snd member) = false) ->
  exists err,
    snd (fold_left (objectMember "weatherData" weatherData_fields ctx) members acc) = Some err.
Proof.
  revert acc. induction members as [|m members IH]; intros acc Hin Hbad; [destruct Hin|].
  cbn [fold_left]. destruct Hin as [->|Hin].
  - destruct (objectMember_misfit acc member Hbad) as [err Herr].
    exists err. apply object_keeps_error. exact Herr.
  - apply IH; assumption.
Qed.

End ReportMembers.

(** ** Numbers that the encoder accepts *)

Section FiniteReport.

Variable ctx : errorContext.

(** Decoding a member of a document with finite numbers into [Main] keeps
    [Kelvin] finite. *)
Lemma objectMember_Main_finite (acc : weatherData_Main * option error) (member : string * json) :
  finiteNumbers (snd member) = true ->
  finite (Kelvin (fst acc)) = true ->
  finite (Kelvin (fst (objectMember "" weatherData_Main_fields ctx acc member))) = true.
Proof.
  intros Hwf Hfin. unfold objectMember. destruct acc as [m saved].
  destruct (findField weatherData_Main_fields (fst member)) as [f|] eqn:Ef; [|exact Hfin].
  apply findField_In in Ef. destruct Ef as [<-|[]]. simpl in Hfin |- *.
  destruct (snd member) as [| |[x|lit]| | |]; simpl in *; assumption.
Qed.

Lemma object_Main_finite (members : list (string * json)) (acc : weatherData_Main * option error) :
  forallb (fun member => let '(_, v) := member in finiteNumbers v) members = true ->
  finite (Kelvin (fst acc)) = true ->
  finite (Kelvin (fst (fold_left (objectMember "" weatherData_Main_fields ctx) members acc)))
  = true.
Proof.
  revert acc. induction members as [|[k v] members IH]; intros acc Hwf Hfin; [exact Hfin|].
  simpl in Hwf. apply andb_true_iff in Hwf. destruct Hwf as [Hv Hrest].
  cbn [fold_left]. apply IH; [exact Hrest|].
  apply objectMember_Main_finite; assumption.
Qed.

End FiniteReport.

Section FiniteReportOuter.

Variable ctx : errorContext.

Lemma objectMember_weatherData_finite (acc : weatherData * option error)
    (member : string * json) :
  finiteNumbers (snd member) = true ->
  finite (Kelvin (Main (fst acc))) = true ->
  finite (Kelvin (Main (fst (objectMember "weatherData" weatherData_fields ctx acc member))))
  = true.
Proof.
  intros Hwf Hfin. unfold objectMember. destruct acc as [d saved].
  destruct (findField weatherData_fields (fst member)) as [f|] eqn:Ef; [|exact Hfin].
  apply findField_In in Ef. destruct Ef as [<-|[<-|[]]]; simpl in Hfin |- *.
  - destruct (snd member); simpl; exact Hfin.
  - destruct (snd member) as [| | | | |inner] eqn:Ev; simpl; try exact Hfin.
    unfold object.
    pose proof (object_Main_finite
                  {| ctxStruct := match FieldStack ctx with
                                  | [] => "weatherData"
                                  | _ => ctxStruct ctx
                                  end;
                     FieldStack := FieldStack ctx ++ [fst member] |}
                  inner (Main d, None)) as Hinner.
    destruct (fold_left _ inner (Main d, None)) as [m e]. simpl in Hinner |- *.
    apply Hinner; [exact Hwf|exact Hfin].
Qed.

Lemma object_weatherData_finite (members : list (string * json))
    (acc : weatherData * option error) :
  forallb (fun member => let '(_, v) := member in finiteNumbers v) members = true ->
  finite (Kelvin (Main (fst acc))) = true ->
  finite (Kelvin (Main (fst (fold_left (objectMember "weatherData" weatherData_fields ctx)
                               members acc)))) = true.
Proof.
  revert acc. induction members as [|[k v] members IH]; intros acc Hwf Hfin; [exact Hfin|].
  simpl in Hwf. apply andb_true_iff in Hwf. destruct Hwf as [Hv Hrest].
  cbn [fold_left]. apply IH; [exact Hrest|].
  apply objectMember_weatherData_finite; assumption.
Qed.

End FiniteReportOuter.

(** What [Unmarshal] makes of a document with finite numbers has a finite
    temperature. *)
Lemma Unmarshal_finite (data : document) :
  (forall j, data = Doc j -> finiteNumbers j = true) ->
  finite (Kelvin (Main (fst (Unmarshal data weatherData_zero)))) = true.
Proof.
  intros Hwf. destruct data as [j|msg]; [|reflexivity].
  specialize (Hwf j eq_refl). unfold Unmarshal, unmarshal. simpl.
  destruct j; try reflexivity.
  apply object_weatherData_finite; [exact Hwf|reflexivity].
Qed.

(** ** The weather handler and the upstream body *)

Section Answered.

Variables (c : string) (r : Request) (W : World) (t : trace).
Variables (cfg : apiConfig) (resp : Response).

Hypothesis city_given : c <> "".
Hypothesis path_of_city : Path (url r) = "/weather/" +:+ c.
Hypothesis key_loaded : fst (loadApiConfig ".apiConfig" W t) = Ok cfg.
Hypothesis answered : upstream W (queryURL c (OpenWeatherMapApiKey cfg)) = Ok resp.

(** The result of [query] is what the decoder makes of the body. *)
Lemma query_decodes_body :
  fst (query c W t)
  = match Unmarshal (Body resp) weatherData_zero with
    | (_, Some err) => Err err
    | (d, None) => Ok d
    end.
Proof.
  rewrite loadApiConfig_value in key_loaded.
  rewrite query_value, (queryOf_with_key W c cfg key_loaded), answered. reflexivity.
Qed.

(** X8: the result of [query] depends on the members of the body whose key is
    [name] or [main] up to the case of letters, and on nothing else of the
    body: it is the result for the body with all other members taken out,
    errors included. *)
Theorem X8_other_members_are_dropped (members : list (string * json)) :
  Body resp = Doc (JObject members) ->
  fst (query c W t)
  = match unmarshal (JObject (List.filter forReport members)) weatherData_zero with
    | (_, Some err) => Err err
    | (d, None) => Ok d
    end.
Proof.
  intros Hbody. rewrite query_decodes_body, Hbody.
  unfold Unmarshal, unmarshal. simpl. unfold object.
  rewrite object_weatherData_filter. reflexivity.
Qed.

(** X9: when the body has several members for [name], the last one is the one
    reported: a string under a key that is [name] up to case, put after
    members that decode to [d], replaces the name of [d] and nothing else. *)
Theorem X9_last_name_wins (members : list (string * json)) (k n : string) (d : weatherData) :
  Body resp = Doc (JObject (members ++ [(k, JString n)])) ->
  keyIs "name" (k, JString n) = true ->
  unmarshal (JObject members) weatherData_zero = (d, None) ->
  fst (query c W t) = Ok {| Name := n; Main := Main d |}.
Proof.
  intros Hbody Hk Hd. rewrite query_decodes_body, Hbody.
  unfold Unmarshal, unmarshal in Hd |- *. simpl in Hd |- *. unfold object in Hd |- *.
  rewrite fold_left_app, Hd. cbn [fold_left]. unfold objectMember.
  rewrite (findField_weatherData (k, JString n)), Hk. reflexivity.
Qed.

(** X10: a member whose key is [name] up to case and whose value is neither a
    string nor [null], or whose key is [main] up to case and whose value is
    neither an object nor [null], wherever it stands in the body, makes
    [query] fail, and the handler reply 500 with the error's message. *)
Theorem X10_a_misfit_member_fails_the_request (members : list (string * json))
    (member : string * json) :
  Body resp = Doc (JObject members) ->
  In member members ->
  (keyIs "name" member = true /\ fitsString (snd member) = false)
  \/ (keyIs "main" member = true /\ fitsStruct (snd member) = false) ->
  exists err,
    fst (query c W t) = Err err
    /\ fst (weatherHandler newResponseWriter r W t)
       = http_Error newResponseWriter (Error err) StatusInternalServerError.
Proof.
  intros Hbody Hin Hbad.
  rewrite (reply_sent_eq c r W t city_given path_of_city), query_decodes_body, Hbody.
  unfold Unmarshal, unmarshal. simpl. unfold object.
  destruct (object_misfit noContext members member (weatherData_zero, None) Hin Hbad)
    as [err Herr].
  destruct (fold_left _ members (weatherData_zero, None)) as [d saved].
  simpl in Herr. subst saved. exists err. split; reflexivity.
Qed.

(** X11: a body that is [null] is reported as the zero report, with status
    200; a body that is a bool, a number, a string or an array makes [query]
    fail with the type error for [main.weatherData]. *)
Theorem X11_a_body_that_is_no_object (j : json) :
  Body resp = Doc j ->
  (j = JNull ->
     fst (query c W t) = Ok weatherData_zero
     /\ status (fst (weatherHandler newResponseWriter r W t)) = Some StatusOK
     /\ body (fst (weatherHandler newResponseWriter r W t))
        = [JSONText (reportJSON "" 0%float); Text nl])
  /\ (fitsStruct j = false ->
      fst (query c W t) = Err (UnmarshalTypeError (valueKind j) "main.weatherData" "" "")).
Proof.
  intros Hbody.
  rewrite (reply_sent_eq c r W t city_given path_of_city), query_decodes_body, Hbody.
  split.
  - intros ->. repeat split.
  - intros Hj. destruct j; try discriminate Hj; reflexivity.
Qed.

End Answered.

(** X8 at work: the body for London, of which two members are kept. *)
Lemma X8_witness :
  fst (query "London" londonWorld [])
  = Ok {| Name := "London"; Main := {| Kelvin := 288.5%float |} |}.
Proof.
  apply (X8_other_members_are_dropped "London" londonWorld []
           {| OpenWeatherMapApiKey := "abc" |}
           {| StatusCode := 200; Body := Doc (JObject londonMembers) |}
           eq_refl eq_refl londonMembers eq_refl).
Defined.

(** X9 at work: a second name, in capitals, after the body for London. *)
Lemma X9_witness :
  fst (query "London" twoNamesWorld [])
  = Ok {| Name := "Londres"; Main := {| Kelvin := 288.5%float |} |}.
Proof.
  apply (X9_last_name_wins "London" twoNamesWorld []
           {| OpenWeatherMapApiKey := "abc" |}
           {| StatusCode := 200;
              Body := Doc (JObject (londonMembers ++ [("NAME", JString "Londres")])) |}
           eq_refl eq_refl londonMembers "NAME" "Londres"
           {| Name := "London"; Main := {| Kelvin := 288.5%float |} |}
           eq_refl eq_refl eq_refl).
Defined.

(** X10 at work: a [Main] member that is a number. *)
Lemma X10_witness :
  exists err, fst (query "London" mainNumberWorld []) = Err err.
Proof.
  destruct (X10_a_misfit_member_fails_the_request "London" (request "/weather/London")
              mainNumberWorld []
              {| OpenWeatherMapApiKey := "abc" |}
              {| StatusCode := 200; Body := Doc (JObject mainNumberMembers) |}
              ltac:(discriminate) eq_refl eq_refl eq_refl
              mainNumberMembers ("Main", JNumber (Float64 288.5%float))
              eq_refl ltac:(right; left; reflexivity)
              ltac:(right; split; reflexivity)) as [err [Herr _]].
  exists err. exact Herr.
Defined.

(** X11 at work: a body that is [null]. *)
Lemma X11_witness :
  fst (query "London" nullBodyWorld []) = Ok weatherData_zero.
Proof.
  apply (X11_a_body_that_is_no_object "London" (request "/weather/London") nullBodyWorld []
           {| OpenWeatherMapApiKey := "abc" |}
           {| StatusCode := 200; Body := Doc JNull |}
           ltac:(discriminate) eq_refl eq_refl eq_refl JNull eq_refl).
  reflexivity.
Defined.

(** ** Every reply of the weather handler *)

(** X12: when the numbers of the bodies that the upstream sends are finite, as
    the numbers of a JSON text are, every reply of the handler, whatever the
    request and the world, is one of three: the 400 reply for a missing city,
    a 500 reply with an error's message, or a 200 reply with the JSON content
    type whose body is a report with a finite temperature; the handler never
    replies 200 without a report. *)
Theorem X12_every_reply_has_one_of_three_shapes (r : Request) (W : World) (t : trace) :
  (forall u resp j, upstream W u = Ok resp -> Body resp = Doc j -> finiteNumbers j = true) ->
  replyShape (fst (weatherHandler newResponseWriter r W t)).
Proof.
  intros Hwf. rewrite weatherHandler_by_path.
  destruct (http_Error_fresh "City name not provided" StatusBadRequest) as (Hs & Hh & Hb).
  destruct (afterSecondSlash (Path (url r))) as [c|]; [|apply NoCity; assumption].
  destruct (String.eqb c ""); [apply NoCity; assumption|]. simpl fst.
  rewrite query_value. unfold queryOf.
  destruct (configOf W ".apiConfig") as [cfg|err0].
  - destruct (upstream W _) as [resp|err1] eqn:Eup; simpl.
    + unfold decodedOf.
      pose proof (Unmarshal_finite (Body resp) (fun j Hj => Hwf _ resp j Eup Hj)) as Hfin.
      destruct (Unmarshal (Body resp) weatherData_zero) as [[n [temp]] [err|]]; simpl in Hfin.
      * destruct (http_Error_fresh (Error err) StatusInternalServerError) as (Hs' & Hh' & Hb').
        apply (Failed _ err); assumption.
      * destruct (reply_report n temp Hfin) as (Hs' & Hh' & Hb').
        apply (Report _ n temp); assumption.
    + destruct (http_Error_fresh (Error err1) StatusInternalServerError) as (Hs' & Hh' & Hb').
      apply (Failed _ err1); assumption.
  - destruct (http_Error_fresh (Error err0) StatusInternalServerError) as (Hs' & Hh' & Hb').
    apply (Failed _ err0); assumption.
Qed.

(** X12 at work: the reply to a request for London. *)
Lemma X12_witness :
  replyShape (fst (weatherHandler newResponseWriter (request "/weather/London") londonWorld [])).
Proof.
  apply (X12_every_reply_has_one_of_three_shapes (request "/weather/London") londonWorld []).
  intros u resp j Hup Hbody. injection Hup as <-. injection Hbody as <-. reflexivity.
Defined.
